(** * Barcode gate controller: validation engine, request handler,
      duplicate suppression and selective wipe of [main.py].

    The program keeps its "already used" registry in the file system, below
    [BARCODE_DIR]; the development therefore starts with a small model of a
    file tree and of the [os] / [os.path] / [shutil] calls the program makes,
    and then follows [main.py] function by function. *)

From Stdlib Require Import NArith Ascii String Strings.Byte.
From stdpp Require Import gmap list.

Set Warnings "-register-all".

Local Open Scope N_scope.

(** ** Python strings and bytes *)

(** A Python [str] is a sequence of Unicode code points; [len], slicing,
    [startswith], [split] and [==] all work on code points. *)
Abbreviation char := N (only parsing).
Abbreviation str := (list N) (only parsing).

(** A string literal of the source, all of them ASCII. *)
Definition lit (s : string) : str :=
  (fun a => N_of_ascii a) <$> list_ascii_of_string s.

(** [s[i:j]] for constants [0 <= i <= j]. *)
Definition slice (i j : nat) (s : str) : str := take (j - i) (drop i s).

(** [s[i:-k]] for constants [i >= 0] and [k > 0]. *)
Definition slice_from_to_end (i k : nat) (s : str) : str :=
  take (length s - k - i) (drop i s).

Definition startswith (p s : str) : bool :=
  bool_decide (take (length p) s = p).

Definition endswith (p s : str) : bool :=
  bool_decide (length p <= length s)%nat
  && bool_decide (drop (length s - length p) s = p).

(** [str.isdigit]: the string is not empty and every character has the
    Unicode property Numeric_Type=Digit or Numeric_Type=Decimal.  The ranges
    are those of the Unicode 14.0 character database. *)
Definition digit_ranges : list (N * N) :=
  [ (48, 57); (178, 179); (185, 185); (1632, 1641); (1776, 1785);
    (1984, 1993); (2406, 2415); (2534, 2543); (2662, 2671); (2790, 2799);
    (2918, 2927); (3046, 3055); (3174, 3183); (3302, 3311); (3430, 3439);
    (3558, 3567); (3664, 3673); (3792, 3801); (3872, 3881); (4160, 4169);
    (4240, 4249); (4969, 4977); (6112, 6121); (6160, 6169); (6470, 6479);
    (6608, 6618); (6784, 6793); (6800, 6809); (6992, 7001); (7088, 7097);
    (7232, 7241); (7248, 7257); (8304, 8304); (8308, 8313); (8320, 8329);
    (9312, 9320); (9332, 9340); (9352, 9360); (9450, 9450); (9461, 9469);
    (9471, 9471); (10102, 10110); (10112, 10120); (10122, 10130);
    (42528, 42537); (43216, 43225); (43264, 43273); (43472, 43481);
    (43504, 43513); (43600, 43609); (44016, 44025); (65296, 65305);
    (66720, 66729); (68160, 68163); (68912, 68921); (69216, 69224);
    (69714, 69722); (69734, 69743); (69872, 69881); (69942, 69951);
    (70096, 70105); (70384, 70393); (70736, 70745); (70864, 70873);
    (71248, 71257); (71360, 71369); (71472, 71481); (71904, 71913);
    (72016, 72025); (72784, 72793); (73040, 73049); (73120, 73129);
    (92768, 92777); (92864, 92873); (93008, 93017); (120782, 120831);
    (123200, 123209); (123632, 123641); (125264, 125273); (127232, 127242);
    (130032, 130041) ].

Definition char_isdigit (c : char) : bool :=
  existsb (fun r => (fst r <=? c) && (c <=? snd r)) digit_ranges.

Definition isdigit (s : str) : bool :=
  negb (bool_decide (s = [])) && forallb char_isdigit s.

(** The decimal digits ['0'] .. ['9']. *)
Definition is_decimal_digit (c : char) : bool := (48 <=? c) && (c <=? 57).

(** [str.split(sep)] for a one-character separator: always at least one
    field. *)
Fixpoint split (sep : char) (s : str) : list str :=
  match s with
  | [] => [[]]
  | c :: r =>
      if bool_decide (c = sep) then [] :: split sep r
      else match split sep r with
           | f :: fs => (c :: f) :: fs
           | [] => [[c]]
           end
  end.

(** ** The file tree *)

(** A file-system entry is a regular file or a directory of named entries.
    Names are stored as the code points of the Python string (UTF-8 file
    system encoding); symbolic links and permissions are not modelled. *)
Inductive node :=
  | File (data : list byte)
  | Dir (entries : gmap str node).

(** A path is the list of its components from the root [/]. The program
    only joins [BARCODE_DIR] with components that are not empty and contain
    no [/], where [os.path.join] appends the component. *)
Abbreviation path := (list (list N)) (only parsing).

Fixpoint lookup_path (p : path) (n : node) : option node :=
  match p with
  | [] => Some n
  | c :: p' =>
      match n with
      | Dir m => match m !! c with
                 | Some child => lookup_path p' child
                 | None => None
                 end
      | File _ => None
      end
  end.

(** [os.path.exists] and [os.path.isdir]. *)
Definition path_exists (p : path) (root : node) : bool :=
  match lookup_path p root with Some _ => true | None => false end.

Definition path_isdir (p : path) (root : node) : bool :=
  match lookup_path p root with Some (Dir _) => true | _ => false end.

(** Binds name [c] to [v] in the directory at [dir]; [None] when [dir] is
    not an existing directory. *)
Fixpoint set_entry (dir : path) (c : str) (v : node) (n : node) : option node :=
  match n with
  | File _ => None
  | Dir m =>
      match dir with
      | [] => Some (Dir (<[c := v]> m))
      | d :: dir' =>
          match m !! d with
          | Some child =>
              match set_entry dir' c v child with
              | Some child' => Some (Dir (<[d := child']> m))
              | None => None
              end
          | None => None
          end
      end
  end.

(** Removes name [c] from the directory at [dir]; [None] when there is no
    such entry. *)
Fixpoint remove_entry (dir : path) (c : str) (n : node) : option node :=
  match n with
  | File _ => None
  | Dir m =>
      match dir with
      | [] => match m !! c with
              | Some _ => Some (Dir (delete c m))
              | None => None
              end
      | d :: dir' =>
          match m !! d with
          | Some child =>
              match remove_entry dir' c child with
              | Some child' => Some (Dir (<[d := child']> m))
              | None => None
              end
          | None => None
          end
      end
  end.

(** [os.makedirs(p, exist_ok=True)]: every missing component of [p] is
    created as an empty directory, an existing directory is entered. The
    call raises [OSError] ([None]) when a component exists and is a regular
    file; that is noticed at the first [mkdir] attempted, below components
    that all existed before, so a failing call has created nothing. *)
Fixpoint makedirs (p : path) (n : node) : option node :=
  match n with
  | File _ => None
  | Dir m =>
      match p with
      | [] => Some n
      | c :: p' =>
          match makedirs p' (default (Dir ∅) (m !! c)) with
          | Some child' => Some (Dir (<[c := child']> m))
          | None => None
          end
      end
  end.

(** [open(dir/name, "w")] followed by closing the file: the file is created
    or truncated. Raises [OSError] ([None]) when [dir/name] is a directory
    or [dir] is not a directory. *)
Definition open_w (dir : path) (name : str) (root : node) : option node :=
  if path_isdir (dir ++ [name]) root then None
  else set_entry dir name (File []) root.

(** ** Program state and effects *)

(** What the program prints, and the external commands it starts. *)
Inductive event :=
  | MustBe20Digits
  | Fields (special_key site_id registry_id numerator : str)
  | MasterGranted (site : str)
  | MasterUnknownSite (site : str)
  | ManualOverride
  | NoSiteDirectory (site_path : path)
  | InvalidSpecialKey (special_key : str)
  | AlreadyLogged
  | FileCreated
  | FileError
  | NetworkRequest (barcode : str) (override : bool)
  | HandlerError
  | CleanupStart
  | NoDatabase
  | DeletingDirectory (item_name : str)
  | DeletingFile (item_name : str)
  | DeleteError (item_name : str)
  | CleanupComplete
  | Mpg123 (mp3_file : path)
  | BypassDuplicateCheck
  | DuplicateIgnored (barcode : str).

(** The state the functions of [main.py] read and write: the file system,
    the module-level list [VALID_SPECIAL_KEYS], and the output so far. *)
Record state := State {
  fs : node;
  VALID_SPECIAL_KEYS : list str;
  output : list event
}.

Definition M (A : Type) : Type := state -> A * state.

Definition ret {A} (a : A) : M A := fun st => (a, st).

Definition bind {A B} (c : M A) (k : A -> M B) : M B :=
  fun st => let (a, st') := c st in k a st'.

Declare Scope prog_scope.
Delimit Scope prog_scope with prog.
Notation "'let!' x ':=' c 'in' k" := (bind c (fun x => k))
  (at level 10, x name, c at level 100, k at level 200) : prog_scope.
Notation "c ';;' k" := (bind c (fun _ => k))
  (at level 100, k at level 200, right associativity) : prog_scope.
Local Open Scope prog_scope.

Definition print (e : event) : M unit :=
  fun st => (tt, State (fs st) (VALID_SPECIAL_KEYS st) (output st ++ [e])).

Definition os_path_isdir (p : path) : M bool :=
  fun st => (path_isdir p (fs st), st).

Definition os_path_exists (p : path) : M bool :=
  fun st => (path_exists p (fs st), st).

Definition special_key_is_valid (k : str) : M bool :=
  fun st => (bool_decide (k ∈ VALID_SPECIAL_KEYS st), st).

Definition append_special_key (k : str) : M unit :=
  fun st => (tt, State (fs st) (VALID_SPECIAL_KEYS st ++ [k]) (output st)).

(** A file-system call that may raise [OSError]: [false] and no change of
    the tree when it raises. *)
Definition os_call (f : node -> option node) : M bool :=
  fun st =>
    match f (fs st) with
    | Some fs' => (true, State fs' (VALID_SPECIAL_KEYS st) (output st))
    | None => (false, st)
    end.

(** ** Configuration *)

Definition BARCODE_DIR : path := [lit "home"; lit "admin"; lit "Barcodes"].
Definition SOUND_PATH (sound_name : str) : path :=
  BARCODE_DIR ++ [lit "sounds"; sound_name ++ lit ".mp3"].
Definition FILES_TO_KEEP : list str :=
  [lit "sounds"; lit "main.py"; lit "install.sh"; lit "requirements.txt";
   lit "install guide barcode.txt"].
(** The value of [VALID_SPECIAL_KEYS] when the module is loaded. *)
Definition INITIAL_SPECIAL_KEYS : list str := [lit ""].
Definition MASTER_KEY_PREFIX : str := lit "123456780".
Definition MASTER_KEY_SUFFIX : str := lit "12345678".

(** ** Shared validation logic *)

Definition create_barcode_file (site_id special_key registry_id numerator : str)
  : M bool :=
  let path := BARCODE_DIR ++ [site_id; special_key; registry_id] in
  let! made := os_call (makedirs path) in
  if made then
    let! opened := os_call (open_w path (numerator ++ lit ".txt")) in
    if opened then print FileCreated ;; ret true
    else print FileError ;; ret false
  else print FileError ;; ret false.

Definition is_master_key (barcode : str) : bool :=
  startswith MASTER_KEY_PREFIX barcode && endswith MASTER_KEY_SUFFIX barcode.

Definition process_barcode_locally (barcode : str) (button_is_pressed : bool)
  : M bool :=
  if negb (Nat.eqb (length barcode) 20) || negb (isdigit barcode) then
    print MustBe20Digits ;; ret false
  else
    let special_key := slice 0 5 barcode in
    let numerator := slice 5 15 barcode in
    let registry_id := slice 15 17 barcode in
    let site_id := slice 17 20 barcode in
    print (Fields special_key site_id registry_id numerator) ;;
    if is_master_key barcode then
      let site_id_from_master :=
        slice_from_to_end (length MASTER_KEY_PREFIX) (length MASTER_KEY_SUFFIX)
          barcode in
      let site_path := BARCODE_DIR ++ [site_id_from_master] in
      let! is_dir := os_path_isdir site_path in
      if is_dir then print (MasterGranted site_id_from_master) ;; ret true
      else print (MasterUnknownSite site_id_from_master) ;; ret false
    else if button_is_pressed then
      print ManualOverride ;;
      let site_path := BARCODE_DIR ++ [site_id] in
      let barcode_file_path :=
        site_path ++ [special_key; registry_id; numerator ++ lit ".txt"] in
      let! present := os_path_exists barcode_file_path in
      if negb present then
        (let! known := special_key_is_valid special_key in
         if negb known then append_special_key special_key else ret tt) ;;
        create_barcode_file site_id special_key registry_id numerator
      else ret true
    else
      let site_path := BARCODE_DIR ++ [site_id] in
      let! is_dir := os_path_isdir site_path in
      if negb is_dir then print (NoSiteDirectory site_path) ;; ret false
      else
        let! known := special_key_is_valid special_key in
        if negb known then print (InvalidSpecialKey special_key) ;; ret false
        else
          let barcode_file_path :=
            site_path ++ [special_key; registry_id; numerator ++ lit ".txt"] in
          let! present := os_path_exists barcode_file_path in
          if present then print AlreadyLogged ;; ret false
          else create_barcode_file site_id special_key registry_id numerator.

(** The four fields of a 20-character code. *)
Definition special_key_of (barcode : str) : str := slice 0 5 barcode.
Definition numerator_of (barcode : str) : str := slice 5 15 barcode.
Definition registry_id_of (barcode : str) : str := slice 15 17 barcode.
Definition site_id_of (barcode : str) : str := slice 17 20 barcode.

(** A well-formed code: exactly 20 characters, each a decimal digit. *)
Definition well_formed (barcode : str) : bool :=
  Nat.eqb (length barcode) 20 && forallb is_decimal_digit barcode.

(** ** The registration store, as the engine uses the file tree *)

Definition site_path (site_id : str) : path := BARCODE_DIR ++ [site_id].

Definition registry_path (site_id special_key registry_id : str) : path :=
  BARCODE_DIR ++ [site_id; special_key; registry_id].

Definition tuple_path (site_id special_key registry_id numerator : str) : path :=
  BARCODE_DIR ++ [site_id; special_key; registry_id; numerator ++ lit ".txt"].

Definition site_exists (site_id : str) (root : node) : bool :=
  path_isdir (site_path site_id) root.

Definition tuple_exists (site_id special_key registry_id numerator : str)
  (root : node) : bool :=
  path_exists (tuple_path site_id special_key registry_id numerator) root.

(** The two file-system calls of [create_barcode_file], without the
    printing: [None] when one of them raises [OSError]. *)
Definition store_insert (site_id special_key registry_id numerator : str)
  (root : node) : option node :=
  match makedirs (registry_path site_id special_key registry_id) root with
  | Some root1 =>
      open_w (registry_path site_id special_key registry_id)
        (numerator ++ lit ".txt") root1
  | None => None
  end.

(** The state after printing [es]. *)
Definition printed (es : list event) (st : state) : state :=
  State (fs st) (VALID_SPECIAL_KEYS st) (output st ++ es).

(** ** Server side: the request handler *)

(** [bytes.strip()]: ASCII white space is removed at both ends. *)
Definition is_ascii_space (b : byte) : bool :=
  let n := Byte.to_N b in
  ((9 <=? n) && (n <=? 13)) || (n =? 32).

Fixpoint lstrip (bs : list byte) : list byte :=
  match bs with
  | [] => []
  | b :: r => if is_ascii_space b then lstrip r else bs
  end.

Definition bytes_strip (bs : list byte) : list byte :=
  rev (lstrip (rev (lstrip bs))).

Definition in_range (lo hi n : N) : bool := (lo <=? n) && (n <=? hi).

Definition is_continuation (n : N) : bool := in_range 128 191 n.

(** [bytes.decode("utf-8")] with strict error handling, on byte values:
    [None] stands for [UnicodeDecodeError]. Over-long forms, surrogates and
    code points above U+10FFFF are refused. *)
Fixpoint utf8_decode (bs : list N) : option str :=
  match bs with
  | [] => Some []
  | b0 :: r0 =>
      if b0 <? 128 then cons b0 <$> utf8_decode r0
      else if b0 <? 194 then None
      else if b0 <? 224 then
        match r0 with
        | b1 :: r1 =>
            if is_continuation b1
            then cons ((b0 - 192) * 64 + (b1 - 128)) <$> utf8_decode r1
            else None
        | _ => None
        end
      else if b0 <? 240 then
        match r0 with
        | b1 :: b2 :: r2 =>
            if in_range (if b0 =? 224 then 160 else 128)
                 (if b0 =? 237 then 159 else 191) b1
               && is_continuation b2
            then cons ((b0 - 224) * 4096 + (b1 - 128) * 64 + (b2 - 128))
                   <$> utf8_decode r2
            else None
        | _ => None
        end
      else if b0 <? 245 then
        match r0 with
        | b1 :: b2 :: b3 :: r3 =>
            if in_range (if b0 =? 240 then 144 else 128)
                 (if b0 =? 244 then 143 else 191) b1
               && is_continuation b2 && is_continuation b3
            then cons ((b0 - 240) * 262144 + (b1 - 128) * 4096
                       + (b2 - 128) * 64 + (b3 - 128))
                   <$> utf8_decode r3
            else None
        | _ => None
        end
      else None
  end.

Definition decode_utf8 (bs : list byte) : option str :=
  utf8_decode (Byte.to_N <$> bs).

(** The two answers of the service, [b"open"] and [b"close"]. *)
Inductive reply := reply_open | reply_close.

(** What the connection does in one request, as far as the program cannot
    decide it: the bytes [recv(1024)] returns ([None] when it raises), and
    whether [sendall] raises. *)
Record connection := Connection {
  received : option (list byte);
  sendall_raises : bool
}.

Definition colon : char := 58.

(** [BarcodeTCPHandler.handle]. The result is the reply that was sent, if
    any; every exception of the body ends in the [except Exception] clause,
    which prints and sends nothing. *)
Definition handle (conn : connection) : M (option reply) :=
  match received conn with
  | None => print HandlerError ;; ret None
  | Some data =>
      match decode_utf8 (bytes_strip data) with
      | None => print HandlerError ;; ret None
      | Some message =>
          if bool_decide (message = []) then ret None
          else
            let parts := split colon message in
            let barcode := default [] (parts !! 0%nat) in
            let button_is_pressed :=
              bool_decide (1 < length parts)%nat
              && bool_decide (parts !! 1%nat = Some (lit "True")) in
            print (NetworkRequest barcode button_is_pressed) ;;
            let! is_valid := process_barcode_locally barcode button_is_pressed in
            if sendall_raises conn then print HandlerError ;; ret None
            else ret (Some (if is_valid then reply_open else reply_close))
      end
  end.

(** The requests of a run of the server, taken one after the other on the
    shared state (the threads of the source are not modelled); the replies
    are collected in order. *)
Fixpoint serve (conns : list connection) : M (list (option reply)) :=
  match conns with
  | [] => ret []
  | conn :: rest =>
      let! r := handle conn in
      let! rs := serve rest in
      ret (r :: rs)
  end.

(** ** Client side *)

Definition play_sound (sound_name : str) : M unit :=
  let mp3_file := SOUND_PATH sound_name in
  let! present := os_path_exists mp3_file in
  if present then print (Mpg123 mp3_file) else ret tt.

Section Wipe.

(** [FILES_TO_KEEP] of the source, kept general here. *)
Variable keep : list str.

(** What deleting a top-level entry can come to, beyond the shape of the
    tree (permissions, busy files, a read-only medium): [None] when the
    entry with everything below it is deleted, [Some residue] when the
    call raises [OSError] and leaves [residue] under the entry's name. *)
Variable delete_fault : str -> node -> option node.

Definition delete_entry (dir : path) (item_name : str) (nd : node) : M bool :=
  fun st =>
    match delete_fault item_name nd with
    | None =>
        match remove_entry dir item_name (fs st) with
        | Some fs' => (true, State fs' (VALID_SPECIAL_KEYS st) (output st))
        | None => (false, st)
        end
    | Some residue =>
        match set_entry dir item_name residue (fs st) with
        | Some fs' => (false, State fs' (VALID_SPECIAL_KEYS st) (output st))
        | None => (false, st)
        end
    end.

(** [shutil.rmtree(dir/item_name)]: [false] when it raises [OSError]. *)
Definition shutil_rmtree (dir : path) (item_name : str) : M bool :=
  fun st =>
    match lookup_path (dir ++ [item_name]) (fs st) with
    | Some (Dir m) => delete_entry dir item_name (Dir m) st
    | _ => (false, st)
    end.

(** [os.remove(dir/item_name)]: [false] when it raises [OSError]. *)
Definition os_remove (dir : path) (item_name : str) : M bool :=
  fun st =>
    match lookup_path (dir ++ [item_name]) (fs st) with
    | Some (File d) => delete_entry dir item_name (File d) st
    | _ => (false, st)
    end.

(** [os.listdir]; the order is that of the map's enumeration. *)
Definition os_listdir (dir : path) : M (list str) :=
  fun st =>
    (match lookup_path dir (fs st) with
     | Some (Dir m) => (map_to_list m).*1
     | _ => []
     end, st).

(** The body of the [for] loop of [delete_database]. *)
Definition delete_item (item_name : str) : M unit :=
  if bool_decide (item_name ∈ keep) then ret tt
  else
    let full_path := BARCODE_DIR ++ [item_name] in
    let! is_dir := os_path_isdir full_path in
    let! deleted :=
      (if is_dir then
         print (DeletingDirectory item_name) ;;
         shutil_rmtree BARCODE_DIR item_name
       else
         print (DeletingFile item_name) ;;
         os_remove BARCODE_DIR item_name) in
    if deleted then ret tt else print (DeleteError item_name).

Fixpoint delete_items (items : list str) : M unit :=
  match items with
  | [] => ret tt
  | item_name :: rest => delete_item item_name ;; delete_items rest
  end.

Definition wipe_except : M unit :=
  print CleanupStart ;;
  let! is_dir := os_path_isdir BARCODE_DIR in
  if negb is_dir then print NoDatabase
  else
    let! items := os_listdir BARCODE_DIR in
    delete_items items ;;
    print CleanupComplete ;;
    play_sound (lit "beep").

End Wipe.

(** [Client.delete_database]. *)
Definition delete_database (delete_fault : str -> node -> option node) : M unit :=
  wipe_except FILES_TO_KEEP delete_fault.

Section Scan.

(** [Client.send_data]: the dispatch of a scan for an admission decision,
    over the network or locally, with the gate and the sounds. *)
Variable send_data : str -> bool -> M unit.

(** One scan taken from the queue in [Client.start]; [last_barcode] is
    the local variable of that name, the result its new value. *)
Definition handle_scan (barcode : str) (button_is_pressed : bool)
  (last_barcode : option str) : M (option str) :=
  let is_master := is_master_key barcode in
  if is_master || button_is_pressed then
    print BypassDuplicateCheck ;;
    send_data barcode button_is_pressed ;;
    ret (if negb is_master then Some barcode else last_barcode)
  else if bool_decide (Some barcode ≠ last_barcode) then
    send_data barcode button_is_pressed ;;
    ret (Some barcode)
  else
    print (DuplicateIgnored barcode) ;;
    play_sound (lit "beep") ;;
    ret last_barcode.

(** The scans of a run of [Client.start], each with the button state
    sampled when it is taken from the queue. *)
Fixpoint handle_scans (scans : list (list N * bool))
  (last_barcode : option str) : M (option str) :=
  match scans with
  | [] => ret last_barcode
  | (barcode, button_is_pressed) :: rest =>
      let! last_barcode' := handle_scan barcode button_is_pressed last_barcode in
      handle_scans rest last_barcode'
  end.

End Scan.

(** [last_barcode = None] when [Client.start] enters its loop. *)
Definition initial_last_barcode : option str := None.

(** ** The request line, as the protocol describes it *)

(** The text before the first colon (all of it when there is none). *)
Fixpoint before_colon (s : str) : str :=
  match s with
  | [] => []
  | c :: r => if bool_decide (c = colon) then [] else c :: before_colon r
  end.

(** The text after the first colon, when there is one. *)
Fixpoint after_colon (s : str) : option str :=
  match s with
  | [] => None
  | c :: r => if bool_decide (c = colon) then Some r else after_colon r
  end.

(** The second colon-separated field, when there is one. *)
Definition second_field (s : str) : option str :=
  before_colon <$> after_colon s.

Definition override_flag (message : str) : bool :=
  bool_decide (second_field message = Some (lit "True")).

(** ** Concrete stores and codes used in the examples *)

(** A file system whose [BARCODE_DIR] holds the entries [m]. *)
Definition barcode_root (m : gmap (list N) node) : node :=
  Dir {[ lit "home" := Dir {[ lit "admin" := Dir {[ lit "Barcodes" := Dir m ]} ]} ]}.

(** Key 12345, numerator 0000000001, registry 01, site 001. *)
Definition code_001 : str := lit "12345000000000101001".

(** The master key of site 001. *)
Definition master_001 : str := lit "12345678000112345678".

(** Twenty times SUPERSCRIPT TWO (U+00B2). *)
Definition superscript_code : str := repeat 178 20.

Definition fresh_state : state :=
  State (barcode_root ∅) INITIAL_SPECIAL_KEYS [].

(** Site 001 is provisioned and key 12345 is known. *)
Definition provisioned_state : state :=
  State (barcode_root {[ lit "001" := Dir ∅ ]}) [lit ""; lit "12345"] [].

(** The tuple of [code_001] is registered. *)
Definition registered_state : state :=
  State
    (barcode_root
       {[ lit "001" :=
            Dir {[ lit "12345" :=
                     Dir {[ lit "01" :=
                              Dir {[ lit "0000000001.txt" := File [] ]} ]} ]} ]})
    [lit ""; lit "12345"] [].

(** Site 001 holds a regular file where the directory of key 12345 would
    be. *)
Definition key_is_file_state : state :=
  State (barcode_root {[ lit "001" := Dir {[ lit "12345" := File [] ]} ]})
    [lit ""; lit "12345"] [].

(** Key 12345 of site 001 holds a regular file where the directory of
    registry 01 would be. *)
Definition registry_is_file_state : state :=
  State
    (barcode_root
       {[ lit "001" := Dir {[ lit "12345" := Dir {[ lit "01" := File [] ]} ]} ]})
    [lit ""; lit "12345"] [].

(** [BARCODE_DIR] holds a regular file named 001. *)
Definition site_is_file_state : state :=
  State (barcode_root {[ lit "001" := File [] ]}) INITIAL_SPECIAL_KEYS [].

(** A store with one site, the sounds and the program file. *)
Definition installed_state : state :=
  State
    (barcode_root
       {[ lit "001" :=
            Dir {[ lit "12345" :=
                     Dir {[ lit "01" :=
                              Dir {[ lit "0000000001.txt" := File [] ]} ]} ]};
          lit "sounds" := Dir {[ lit "beep.mp3" := File [] ]};
          lit "main.py" := File [];
          lit "notes.txt" := File [] ]})
    INITIAL_SPECIAL_KEYS [].

(** No deletion ever fails. *)
Definition no_fault : list N -> node -> option node := fun _ _ => None.

(** Deleting the entry 001 fails and leaves an empty directory. *)
Definition fault_on_001 : list N -> node -> option node :=
  fun name _ => if bool_decide (name = lit "001") then Some (Dir ∅) else None.

(** A dispatch that always validates locally, as [send_data] does when the
    server is unreachable (without the gate and the sounds). *)
Definition local_dispatch (barcode : str) (button_is_pressed : bool) : M unit :=
  process_barcode_locally barcode button_is_pressed ;; ret tt.

(** ** What the wipe makes of one top-level entry *)

Definition wiped (keep : list (list N)) (delete_fault : list N -> node -> option node)
  (name : str) (entry : option node) : option node :=
  match entry with
  | None => None
  | Some nd => if bool_decide (name ∈ keep) then Some nd else delete_fault name nd
  end.

(** What [delete_database] prints for one top-level entry. *)
Definition item_log (keep : list (list N))
  (delete_fault : list N -> node -> option node)
  (name : str) (entry : option node) : list event :=
  if bool_decide (name ∈ keep) then []
  else
    match entry with
    | Some (Dir m) =>
        DeletingDirectory name ::
        match delete_fault name (Dir m) with
        | None => []
        | Some _ => [DeleteError name]
        end
    | Some (File d) =>
        DeletingFile name ::
        match delete_fault name (File d) with
        | None => []
        | Some _ => [DeleteError name]
        end
    | None => [DeletingFile name; DeleteError name]
    end.

(** ** Concrete requests used in the examples *)

Definition request_bytes (s : string) : list byte := list_byte_of_string s.

(** A valid code with a flag that is neither [True] nor [False]. *)
Definition garbled_flag_request : connection :=
  Connection (Some (request_bytes "12345000000000101001:maybe")) false.

(** A valid code with the flag in lower case. *)
Definition lowercase_flag_request : connection :=
  Connection (Some (request_bytes "12345000000000101001:true")) false.

(** A payload of white space only. *)
Definition blank_request : connection :=
  Connection (Some (request_bytes "  ")) false.

(** Twenty times the UTF-8 form of U+00B2, then the flag [True]. *)
Definition superscript_request : connection :=
  Connection
    (Some (concat (repeat [Byte.xc2; Byte.xb2] 20) ++ request_bytes ":True"))
    false.

(** A payload that is not UTF-8. *)
Definition invalid_utf8_request : connection :=
  Connection (Some [Byte.xff; Byte.x3a]) false.

(** ** Notions used to state what the operations keep *)

(** Both regular files, or both directories. *)
Definition same_kind (x y : node) : Prop :=
  match x, y with
  | File _, File _ => True
  | Dir _, Dir _ => True
  | _, _ => False
  end.

(** The tuple a 20-character code stands for: site, key, registry,
    numerator. *)
Definition tuple_of (barcode : str) : list N * list N * list N * list N :=
  (site_id_of barcode, special_key_of barcode, registry_id_of barcode,
   numerator_of barcode).

(** ** [str.encode("utf-8")] *)

(** The bytes of one code point; [None] stands for [UnicodeEncodeError],
    raised for the surrogates U+D800..U+DFFF (a Python string has no code
    point above U+10FFFF). *)
Definition utf8_encode_char (c : N) : option (list N) :=
  if c <? 128 then Some [c]
  else if c <? 2048 then Some [192 + c / 64; 128 + c mod 64]
  else if c <? 65536 then
    if in_range 55296 57343 c then None
    else Some [224 + c / 4096; 128 + (c / 64) mod 64; 128 + c mod 64]
  else if c <? 1114112 then
    Some [240 + c / 262144; 128 + (c / 4096) mod 64; 128 + (c / 64) mod 64;
          128 + c mod 64]
  else None.

Fixpoint utf8_encode (s : str) : option (list N) :=
  match s with
  | [] => Some []
  | c :: r =>
      match utf8_encode_char c, utf8_encode r with
      | Some bs, Some rest => Some (bs ++ rest)
      | _, _ => None
      end
  end.

Definition byte_of_N (n : N) : byte := default Byte.x00 (Byte.of_N n).

Definition encode_utf8 (s : str) : option (list byte) :=
  match utf8_encode s with
  | Some ns => Some (byte_of_N <$> ns)
  | None => None
  end.

(** ** The request and the reply on the wire *)

(** The button state as [Client.start] samples it,
    [self.config_button and self.config_button.is_pressed]: [None] when the
    button could not be set up. *)
Definition truthy (button_is_pressed : option bool) : bool :=
  default false button_is_pressed.

(** [f"{button_is_pressed}"]. *)
Definition button_text (button_is_pressed : option bool) : str :=
  match button_is_pressed with
  | None => lit "None"
  | Some true => lit "True"
  | Some false => lit "False"
  end.

(** [f"{data}:{button_is_pressed}"]. *)
Definition request_line (data : str) (button_is_pressed : option bool) : str :=
  data ++ colon :: button_text button_is_pressed.

(** What the client's [recv] returns after the handler has sent [r] and the
    connection is closed: nothing at all when no reply was sent. *)
Definition reply_bytes (r : option reply) : list byte :=
  match r with
  | Some reply_open => request_bytes "open"
  | Some reply_close => request_bytes "close"
  | None => []
  end.

(** ** [Client.send_data] *)

(** What [send_data] and [open_gate] print, and the pulse on the gate pin. *)
Inductive client_event :=
  | ServerUnreachable
  | ServerOnline
  | ServerResponded (response : str)
  | SocketErrorPrinted
  | GateBlink
  | GateOpened
  | GateDisabled.

(** The client's effects in the order they happen: those of the shared
    functions, and those of [send_data] itself. *)
Inductive effect :=
  | Shared (e : event)
  | Dispatch (e : client_event).

(** The client machine: its file system, its copy of
    [VALID_SPECIAL_KEYS], and its effects so far. *)
Record client_state := ClientState {
  client_fs : node;
  client_keys : list str;
  client_log : list effect
}.

Definition C (A : Type) : Type := client_state -> A * client_state.

Definition cret {A} (a : A) : C A := fun w => (a, w).

Definition cbind {A B} (c : C A) (k : A -> C B) : C B :=
  fun w => let (a, w') := c w in k a w'.

Declare Scope client_scope.
Delimit Scope client_scope with client.
Notation "'do!' x ':=' c 'in' k" := (cbind c (fun x => k))
  (at level 10, x name, c at level 100, k at level 200) : client_scope.
Notation "c ';;;' k" := (cbind c (fun _ => k))
  (at level 100, k at level 200, right associativity) : client_scope.
Local Open Scope client_scope.

(** A shared function run on the client machine; its output goes to the
    client's log. *)
Definition lift {A} (c : M A) : C A :=
  fun w =>
    let (a, st') := c (State (client_fs w) (client_keys w) []) in
    (a, ClientState (fs st') (VALID_SPECIAL_KEYS st')
          (client_log w ++ (Shared <$> output st'))).

Definition note (e : client_event) : C unit :=
  fun w => (tt, ClientState (client_fs w) (client_keys w)
                  (client_log w ++ [Dispatch e])).

(** How a call ends: by returning, or with an exception that nothing in
    [Client.start] catches. *)
Inductive completion := Returned | Raised.

Section Dispatch.

(** [self.gate] is not [None]. *)
Variable gate : bool.

(** The result of [self.ping_server(SERVER_IP)]. *)
Variable ping_server : bool.

(** Whether [connect] succeeds, and what [recv] returns for the bytes
    sent; [false] and [None] stand for [socket.error]. *)
Variable connects : bool.
Variable exchange : list byte -> option (list byte).

Definition open_gate : C unit :=
  if gate then note GateBlink ;;; note GateOpened
  else note GateDisabled.

Definition send_data (data : str) (button_is_pressed : option bool)
  : C completion :=
  if negb ping_server then
    note ServerUnreachable ;;;
    do! is_valid_locally :=
      lift (process_barcode_locally data (truthy button_is_pressed)) in
    (if is_valid_locally then open_gate ;;; lift (play_sound (lit "sound"))
     else lift (play_sound (lit "beep"))) ;;;
    cret Returned
  else
    note ServerOnline ;;;
    if negb connects then note SocketErrorPrinted ;;; cret Returned
    else
      match encode_utf8 (request_line data button_is_pressed) with
      | None => cret Raised
      | Some message =>
          match exchange message with
          | None => note SocketErrorPrinted ;;; cret Returned
          | Some answer =>
              match decode_utf8 answer with
              | None => cret Raised
              | Some response =>
                  note (ServerResponded response) ;;;
                  if bool_decide (response = lit "open") then
                    open_gate ;;; lift (play_sound (lit "sound")) ;;;
                    cret Returned
                  else if bool_decide (response = lit "close") then
                    lift (play_sound (lit "beep")) ;;; cret Returned
                  else cret Returned
              end
          end
      end.

End Dispatch.

(** The exchange with a server in state [server] that receives the bytes
    in one piece and whose [sendall] does not fail. *)
Definition served_by (server : state) (message : list byte)
  : option (list byte) :=
  Some (reply_bytes (fst (handle (Connection (Some message) false) server))).

(** ** [Client.reader_process] *)

(** Key code and character, as in the source. *)
Definition KEYCODE_MAP : list (N * N) :=
  [(30, 49); (31, 50); (32, 51); (33, 52); (34, 53); (35, 54); (36, 55);
   (37, 56); (38, 57); (39, 48)].

(** [KEYCODE_MAP.get(keycode)]. *)
Definition keycode_char (keycode : N) : option N :=
  snd <$> List.find (fun kv => fst kv =? keycode) KEYCODE_MAP.

(** The body of the inner loop for one report [data]: the new
    [barcode_chars] and what is put on the queue. *)
Definition process_report (data : list N) (barcode_chars : str)
  : list N * list (list N) :=
  match data with
  | _ :: _ :: keycode :: _ =>
      if keycode =? 0 then (barcode_chars, [])
      else if keycode =? 40 then ([], [barcode_chars])
      else match keycode_char keycode with
           | Some char => (barcode_chars ++ [char], [])
           | None => (barcode_chars, [])
           end
  | _ => (barcode_chars, [])
  end.

(** Where the reader is: without a device, or reading from a configured
    device with [barcode_chars] collected. *)
Inductive reader_state :=
  | Searching
  | Reading (barcode_chars : list N).

(** What the USB library answers to the call the reader makes next. *)
Inductive usb_answer :=
  | ScannerMissing
  | ScannerFound (configured : bool)
  | ReadData (data : list N)
  | ReadFault.

(** One turn of the reader; [None] when the answer does not belong to the
    call the reader makes in this state. *)
Definition reader_step (st : reader_state) (answer : usb_answer)
  : option (reader_state * list (list N)) :=
  match st, answer with
  | Searching, ScannerMissing => Some (Searching, [])
  | Searching, ScannerFound true => Some (Reading [], [])
  | Searching, ScannerFound false => Some (Searching, [])
  | Reading barcode_chars, ReadData data =>
      let (chars, queued) := process_report data barcode_chars in
      Some (Reading chars, queued)
  | Reading _, ReadFault => Some (Searching, [])
  | _, _ => None
  end.

Fixpoint reader_run (answers : list usb_answer) (st : reader_state)
  : option (reader_state * list (list N)) :=
  match answers with
  | [] => Some (st, [])
  | answer :: rest =>
      match reader_step st answer with
      | Some (st1, queued) =>
          match reader_run rest st1 with
          | Some (st2, queued') => Some (st2, queued ++ queued')
          | None => None
          end
      | None => None
      end
  end.

(** The report a scanner sends for one key. *)
Definition key_report (keycode : N) : list N := [0; 0; keycode; 0; 0; 0; 0; 0].

(** The key code of a decimal digit. *)
Definition digit_keycode (c : N) : N := if c =? 48 then 39 else c - 49 + 30.

(** The reports of a scanner that types the digits [s] and Enter, each
    key followed by the report of its release. *)
Definition typed (s : list N) : list usb_answer :=
  flat_map (fun c => [ReadData (key_report (digit_keycode c));
                      ReadData (key_report 0)]) s
  ++ [ReadData (key_report 40); ReadData (key_report 0)].

(** A reader state holds decimal digits only. *)
Definition digits_only (st : reader_state) : Prop :=
  match st with
  | Searching => True
  | Reading barcode_chars =>
      Forall (fun c => is_decimal_digit c = true) barcode_chars
  end.

(** ** [Server.__init__] *)

(** [os.makedirs(BARCODE_DIR, exist_ok=True)]; [false] when it raises. *)
Definition Server_init : M bool := os_call (makedirs BARCODE_DIR).

(** ** The button hold in [Client.start] *)

Definition is_cleanup_start (e : event) : bool :=
  match e with CleanupStart => true | _ => false end.

(** How often [delete_database] has been started. *)
Definition wipes (st : state) : nat :=
  length (List.filter is_cleanup_start (output st)).

(** A computation starts [delete_database] exactly [n] times. *)
Definition adds_wipes {A} (c : M A) (n : nat) : Prop :=
  forall st, wipes (snd (c st)) = (wipes st + n)%nat.

Section Hold.

(** The values of [time.time()], and the test
    [time.time() - button_held_start_time >= 10] on a start value and a
    later value. *)
Variable time : Type.
Variable held_10s : time -> time -> bool.

Variable delete_fault : list N -> node -> option node.

(** The two local variables of [Client.start]. *)
Record hold := Hold {
  button_held_start_time : option time;
  db_deleted_this_hold : bool
}.

(** What one turn of the loop reads: the button, and the values the two
    calls of [time.time()] return (the first is made only when a hold
    starts). *)
Record sample := Sample {
  is_pressed : bool;
  clock_at_start : time;
  clock_now : time
}.

Definition hold_tick (s : sample) (h : hold) : M hold :=
  if is_pressed s then
    let start :=
      match button_held_start_time h with
      | None => clock_at_start s
      | Some t => t
      end in
    let deleted :=
      match button_held_start_time h with
      | None => false
      | Some _ => db_deleted_this_hold h
      end in
    if held_10s start (clock_now s) && negb deleted then
      delete_database delete_fault ;;
      ret (Hold (Some start) true)
    else ret (Hold (Some start) deleted)
  else ret (Hold None (db_deleted_this_hold h)).

Fixpoint hold_run (samples : list sample) (h : hold) : M hold :=
  match samples with
  | [] => ret h
  | s :: rest => let! h1 := hold_tick s h in hold_run rest h1
  end.

(** How often the button goes from released to pressed in a row of
    samples; [pressed_before] is its state before the first one. *)
Fixpoint presses (pressed_before : bool) (samples : list sample) : nat :=
  match samples with
  | [] => 0%nat
  | s :: rest =>
      ((if is_pressed s && negb pressed_before then 1 else 0)
       + presses (is_pressed s) rest)%nat
  end.

End Hold.

(** A clock in seconds, for examples. *)
Definition seconds_held_10s (start now : N) : bool := 10 <=? now - start.

(** The two variables when [Client.start] enters its loop. *)
Definition initial_hold (time : Type) : hold time := Hold time None false.

(** ** What a dispatch leaves in the client's log *)

(** The effects of [open_gate]. *)
Definition gate_effects (gate : bool) : list effect :=
  if gate then [Dispatch GateBlink; Dispatch GateOpened]
  else [Dispatch GateDisabled].

(** The effects of [play_sound]: the player is started when the sound file
    exists. *)
Definition sound_effects (sound_name : str) (root : node) : list effect :=
  if path_exists (SOUND_PATH sound_name) root
  then [Shared (Mpg123 (SOUND_PATH sound_name))] else [].

(** The text of a reply. *)
Definition reply_text (admitted : bool) : str :=
  if admitted then lit "open" else lit "close".

(** ** Lemmas on the file tree *)

Lemma lookup_path_app (p q : path) (n : node) :
  lookup_path (p ++ q) n = lookup_path p n ≫= lookup_path q.
Proof.
  revert n. induction p as [|c p IH]; intros n; simpl; [done|].
  destruct n as [d|m]; [done|].
  destruct (m !! c) as [child|]; [apply IH|done].
Qed.

Lemma lookup_path_empty_dir (p : path) :
  p ≠ [] -> lookup_path p (Dir ∅) = None.
Proof. destruct p as [|c p]; [done|]. intros _. simpl. by rewrite lookup_empty. Qed.

Lemma lookup_path_below_file (p : path) (d : list byte) :
  p ≠ [] -> lookup_path p (File d) = None.
Proof. by destruct p. Qed.

(** An entry below [p] exists only if [p] is a directory. *)
Lemma lookup_path_parent_isdir (p q : path) (n x : node) :
  q ≠ [] -> lookup_path (p ++ q) n = Some x -> path_isdir p n = true.
Proof.
  intros Hq. rewrite lookup_path_app. unfold path_isdir.
  destruct (lookup_path p n) as [[d|m]|]; simpl; try done.
  by rewrite lookup_path_below_file.
Qed.

Lemma makedirs_isdir (p : path) (n n' : node) :
  makedirs p n = Some n' -> path_isdir p n' = true.
Proof.
  unfold path_isdir. revert n n'.
  induction p as [|c p IH]; intros [d|m] n' H; simpl in H; try done.
  - by inversion H.
  - destruct (makedirs p (default (Dir ∅) (m !! c))) as [child'|] eqn:E; [|done].
    inversion H; subst. simpl. rewrite lookup_insert_eq. by eapply IH.
Qed.

(** [makedirs p] adds nothing below [p]. *)
Lemma makedirs_below (p q : path) (n n' : node) :
  q ≠ [] -> makedirs p n = Some n' ->
  lookup_path (p ++ q) n' = lookup_path (p ++ q) n.
Proof.
  intros Hq. revert n n'.
  induction p as [|c p IH]; intros [d|m] n' H; simpl in H; try done.
  - by inversion H.
  - destruct (makedirs p (default (Dir ∅) (m !! c))) as [child'|] eqn:E; [|done].
    inversion H; subst. simpl. rewrite lookup_insert_eq.
    rewrite (IH _ _ E). destruct (m !! c) as [child|]; simpl; [done|].
    apply lookup_path_empty_dir. by destruct p, q.
Qed.

Lemma set_entry_lookup (dir : path) (c : str) (v : node) (n : node)
  (m : gmap str node) :
  lookup_path dir n = Some (Dir m) ->
  exists n', set_entry dir c v n = Some n'
             /\ lookup_path dir n' = Some (Dir (<[c := v]> m)).
Proof.
  revert n. induction dir as [|d dir IH]; intros [x|m0] H; simpl in H; try done.
  - inversion H; subst. eexists. simpl. eauto.
  - destruct (m0 !! d) as [child|] eqn:E; [|done].
    destruct (IH _ H) as (child' & Hs & Hl).
    exists (Dir (<[d := child']> m0)). simpl. rewrite E, Hs.
    split; [done|]. by rewrite lookup_insert_eq.
Qed.

Lemma set_entry_Some (dir : path) (c : str) (v : node) (n n' : node) :
  set_entry dir c v n = Some n' ->
  exists m, lookup_path dir n = Some (Dir m)
            /\ lookup_path dir n' = Some (Dir (<[c := v]> m)).
Proof.
  revert n n'. induction dir as [|d dir IH]; intros [x|m0] n' H; simpl in H; try done.
  - inversion H; subst. eauto.
  - destruct (m0 !! d) as [child|] eqn:E; [|done].
    destruct (set_entry dir c v child) as [child'|] eqn:Es; [|done].
    inversion H; subst. destruct (IH _ _ Es) as (m & H1 & H2).
    exists m. simpl. by rewrite E, lookup_insert_eq.
Qed.

Lemma remove_entry_Some (dir : path) (c : str) (n n' : node) :
  remove_entry dir c n = Some n' ->
  exists m, lookup_path dir n = Some (Dir m)
            /\ lookup_path dir n' = Some (Dir (delete c m)).
Proof.
  revert n n'. induction dir as [|d dir IH]; intros [x|m0] n' H; simpl in H; try done.
  - destruct (m0 !! c); [|done]. inversion H; subst. eauto.
  - destruct (m0 !! d) as [child|] eqn:E; [|done].
    destruct (remove_entry dir c child) as [child'|] eqn:Es; [|done].
    inversion H; subst. destruct (IH _ _ Es) as (m & H1 & H2).
    exists m. simpl. by rewrite E, lookup_insert_eq.
Qed.

Lemma remove_entry_lookup (dir : path) (c : str) (n : node)
  (m : gmap str node) :
  lookup_path dir n = Some (Dir m) -> is_Some (m !! c) ->
  exists n', remove_entry dir c n = Some n'.
Proof.
  revert n. induction dir as [|d dir IH]; intros [x|m0] H Hc; simpl in H; try done.
  - inversion H; subst. destruct Hc as [y Hy]. simpl. rewrite Hy. eauto.
  - destruct (m0 !! d) as [child|] eqn:E; [|done].
    destruct (IH _ H Hc) as (child' & Hs).
    exists (Dir (<[d := child']> m0)). simpl. by rewrite E, Hs.
Qed.

(** The entry [c] of the directory at [dir]. *)
Lemma lookup_path_snoc (dir : path) (c : str) (n : node) :
  lookup_path (dir ++ [c]) n =
  match lookup_path dir n with
  | Some (Dir m) => m !! c
  | _ => None
  end.
Proof.
  rewrite lookup_path_app. destruct (lookup_path dir n) as [[d|m]|]; simpl; try done.
  by destruct (m !! c).
Qed.

(** ** Lemmas on the store *)

Lemma tuple_path_registry (s k r n : str) :
  tuple_path s k r n = registry_path s k r ++ [n ++ lit ".txt"].
Proof. reflexivity. Qed.

Lemma tuple_path_site (s k r n : str) :
  tuple_path s k r n = site_path s ++ [k; r; n ++ lit ".txt"].
Proof. reflexivity. Qed.

(** A registered tuple lies in an existing site directory. *)
Lemma tuple_exists_site_exists (s k r n : str) (root : node) :
  tuple_exists s k r n root = true -> site_exists s root = true.
Proof.
  unfold tuple_exists, site_exists, path_exists. rewrite tuple_path_site.
  destruct (lookup_path _ root) as [x|] eqn:E; [|done]. intros _.
  by eapply lookup_path_parent_isdir; [|exact E].
Qed.

(** On an absent tuple the insert fails only in [os.makedirs]; when it
    succeeds the tuple is registered. *)
Lemma store_insert_absent (s k r n : str) (root : node) :
  tuple_exists s k r n root = false ->
  match store_insert s k r n root with
  | Some root' =>
      tuple_exists s k r n root' = true
      /\ exists root1, makedirs (registry_path s k r) root = Some root1
                       /\ open_w (registry_path s k r) (n ++ lit ".txt") root1
                          = Some root'
  | None => makedirs (registry_path s k r) root = None
  end.
Proof.
  unfold tuple_exists, path_exists, store_insert. rewrite tuple_path_registry.
  intros Habs.
  destruct (makedirs (registry_path s k r) root) as [root1|] eqn:Em; [|done].
  pose proof (makedirs_isdir _ _ _ Em) as Hd.
  assert (lookup_path (registry_path s k r ++ [n ++ lit ".txt"]) root1 = None) as Hb.
  { rewrite (makedirs_below _ [_] _ _ ltac:(done) Em).
    by destruct (lookup_path _ root). }
  unfold open_w, path_isdir. rewrite Hb.
  unfold path_isdir in Hd.
  destruct (lookup_path (registry_path s k r) root1) as [[d|m]|] eqn:El; try done.
  destruct (set_entry_lookup _ (n ++ lit ".txt") (File []) _ _ El) as (root2 & Hs & Hl).
  rewrite Hs. split.
  - by rewrite lookup_path_snoc, Hl, lookup_insert_eq.
  - exists root1. by rewrite Hb.
Qed.

Lemma create_barcode_file_eq (s k r n : str) (st : state) :
  create_barcode_file s k r n st =
  match makedirs (registry_path s k r) (fs st) with
  | Some root1 =>
      match open_w (registry_path s k r) (n ++ lit ".txt") root1 with
      | Some root2 =>
          (true, State root2 (VALID_SPECIAL_KEYS st) (output st ++ [FileCreated]))
      | None =>
          (false, State root1 (VALID_SPECIAL_KEYS st) (output st ++ [FileError]))
      end
  | None => (false, printed [FileError] st)
  end.
Proof.
  unfold create_barcode_file, registry_path, bind, os_call, print, ret, printed.
  destruct (makedirs _ (fs st)) as [root1|]; simpl; [|done].
  by destruct (open_w _ _ root1).
Qed.

(** [create_barcode_file] on an absent tuple: the insert and one line of
    output, or no change of the tree. *)
Lemma create_barcode_file_absent (s k r n : str) (st : state) :
  tuple_exists s k r n (fs st) = false ->
  create_barcode_file s k r n st =
  match store_insert s k r n (fs st) with
  | Some root' =>
      (true, State root' (VALID_SPECIAL_KEYS st) (output st ++ [FileCreated]))
  | None => (false, printed [FileError] st)
  end.
Proof.
  intros Habs. rewrite create_barcode_file_eq.
  pose proof (store_insert_absent _ _ _ _ _ Habs) as H.
  destruct (store_insert s k r n (fs st)) as [root'|].
  - destruct H as (_ & root1 & -> & ->). done.
  - by rewrite H.
Qed.

(** ** Lemmas on the format check *)

Lemma decimal_digit_isdigit (c : char) :
  is_decimal_digit c = true -> char_isdigit c = true.
Proof.
  intros H. unfold char_isdigit. apply existsb_exists.
  exists (48, 57). split; [|exact H]. unfold digit_ranges. by left.
Qed.

Lemma well_formed_accepted (c : str) :
  well_formed c = true -> length c = 20%nat /\ isdigit c = true.
Proof.
  unfold well_formed, isdigit. intros [Hl Hd]%andb_prop.
  apply Nat.eqb_eq in Hl. split; [done|].
  apply andb_true_intro. split.
  - destruct c; [done|]. by rewrite bool_decide_eq_false_2.
  - rewrite forallb_forall in *. intros x Hx. apply decimal_digit_isdigit. auto.
Qed.

(** ** The four paths of [process_barcode_locally] *)

Lemma process_malformed (c : str) (ov : bool) (st : state) :
  negb (Nat.eqb (length c) 20) || negb (isdigit c) = true ->
  process_barcode_locally c ov st = (false, printed [MustBe20Digits] st).
Proof. intros H. unfold process_barcode_locally. by rewrite H. Qed.

Lemma process_master (c : str) (ov : bool) (st : state) :
  length c = 20%nat -> isdigit c = true -> is_master_key c = true ->
  process_barcode_locally c ov st =
  let site := slice_from_to_end 9 8 c in
  let st1 :=
    printed [Fields (special_key_of c) (site_id_of c) (registry_id_of c)
               (numerator_of c)] st in
  if site_exists site (fs st) then (true, printed [MasterGranted site] st1)
  else (false, printed [MasterUnknownSite site] st1).
Proof.
  intros Hl Hd Hm. unfold process_barcode_locally. rewrite Hl, Hd, Hm.
  unfold site_exists, site_path, bind, print, os_path_isdir, ret, printed; simpl.
  by destruct (path_isdir _ (fs st)).
Qed.

Lemma process_override (c : str) (st : state) :
  length c = 20%nat -> isdigit c = true -> is_master_key c = false ->
  process_barcode_locally c true st =
  let k := special_key_of c in
  let st1 :=
    printed [Fields k (site_id_of c) (registry_id_of c) (numerator_of c);
             ManualOverride] st in
  if tuple_exists (site_id_of c) k (registry_id_of c) (numerator_of c) (fs st)
  then (true, st1)
  else
    create_barcode_file (site_id_of c) k (registry_id_of c) (numerator_of c)
      (State (fs st)
         (if bool_decide (k ∈ VALID_SPECIAL_KEYS st) then VALID_SPECIAL_KEYS st
          else VALID_SPECIAL_KEYS st ++ [k])
         (output st1)).
Proof.
  intros Hl Hd Hm. unfold process_barcode_locally. rewrite Hl, Hd, Hm.
  unfold tuple_exists, tuple_path, bind, print, os_path_exists, ret, printed,
    special_key_is_valid, append_special_key; simpl.
  rewrite <- !app_assoc; simpl.
  destruct (path_exists _ (fs st)); simpl; [done|].
  by destruct (bool_decide _).
Qed.

Lemma process_normal (c : str) (st : state) :
  length c = 20%nat -> isdigit c = true -> is_master_key c = false ->
  process_barcode_locally c false st =
  let s := site_id_of c in
  let k := special_key_of c in
  let st1 :=
    printed [Fields k s (registry_id_of c) (numerator_of c)] st in
  if negb (site_exists s (fs st)) then
    (false, printed [NoSiteDirectory (site_path s)] st1)
  else if negb (bool_decide (k ∈ VALID_SPECIAL_KEYS st)) then
    (false, printed [InvalidSpecialKey k] st1)
  else if tuple_exists s k (registry_id_of c) (numerator_of c) (fs st) then
    (false, printed [AlreadyLogged] st1)
  else create_barcode_file s k (registry_id_of c) (numerator_of c) st1.
Proof.
  intros Hl Hd Hm. unfold process_barcode_locally. rewrite Hl, Hd, Hm.
  unfold site_exists, tuple_exists, tuple_path, site_path, bind, print,
    os_path_isdir, os_path_exists, ret, printed, special_key_is_valid; simpl.
  destruct (path_isdir _ (fs st)); simpl; [|done].
  destruct (bool_decide _); simpl; [|done].
  by destruct (path_exists _ (fs st)).
Qed.

(** ** The Master Key shape *)

Lemma master_key_shape (c : str) :
  length c = 20%nat -> is_master_key c = true ->
  c = MASTER_KEY_PREFIX ++ slice_from_to_end 9 8 c ++ MASTER_KEY_SUFFIX.
Proof.
  intros Hl [Hp Hs]%andb_prop.
  apply bool_decide_eq_true_1 in Hp.
  apply andb_prop in Hs as [_ Hs]. apply bool_decide_eq_true_1 in Hs.
  unfold slice_from_to_end. rewrite Hl in *.
  change (length MASTER_KEY_PREFIX) with 9%nat in Hp.
  change (20 - length MASTER_KEY_SUFFIX)%nat with (9 + 3)%nat in Hs.
  change (20 - 8 - 9)%nat with 3%nat.
  rewrite <- drop_drop in Hs.
  transitivity (take 9 c ++ take 3 (drop 9 c) ++ drop 3 (drop 9 c)).
  - by rewrite (take_drop 3 (drop 9 c)), (take_drop 9 c).
  - by rewrite Hp, Hs.
Qed.

(** ** Claims on the validation engine *)

(** C1 (amended). For a well-formed 20-digit code that is not a Master Key,
    [process_barcode_locally] with the button not pressed decides in this
    order, the first match winning: it denies when the site directory is
    missing; otherwise denies when the special key is not in
    [VALID_SPECIAL_KEYS]; otherwise denies when the tuple's file exists;
    otherwise it attempts the insert, admits when the insert succeeds and
    denies when the insert raises [OSError]. The key list never changes and
    a denial leaves the file tree as it was. *)
Theorem normal_mode_decision (c : str) (st : state) (r : bool) (st' : state) :
  well_formed c = true -> is_master_key c = false ->
  process_barcode_locally c false st = (r, st') ->
  let s := site_id_of c in
  let k := special_key_of c in
  let g := registry_id_of c in
  let n := numerator_of c in
  VALID_SPECIAL_KEYS st' = VALID_SPECIAL_KEYS st
  /\ (site_exists s (fs st) = false ->
      r = false /\ fs st' = fs st
      /\ output st' = output st ++ [Fields k s g n; NoSiteDirectory (site_path s)])
  /\ (site_exists s (fs st) = true -> k ∉ VALID_SPECIAL_KEYS st ->
      r = false /\ fs st' = fs st
      /\ output st' = output st ++ [Fields k s g n; InvalidSpecialKey k])
  /\ (site_exists s (fs st) = true -> k ∈ VALID_SPECIAL_KEYS st ->
      tuple_exists s k g n (fs st) = true ->
      r = false /\ fs st' = fs st
      /\ output st' = output st ++ [Fields k s g n; AlreadyLogged])
  /\ (site_exists s (fs st) = true -> k ∈ VALID_SPECIAL_KEYS st ->
      tuple_exists s k g n (fs st) = false ->
      match store_insert s k g n (fs st) with
      | Some root' =>
          r = true /\ fs st' = root' /\ tuple_exists s k g n root' = true
          /\ output st' = output st ++ [Fields k s g n; FileCreated]
      | None =>
          r = false /\ fs st' = fs st
          /\ output st' = output st ++ [Fields k s g n; FileError]
      end).
Proof.
  intros Hwf Hm Hrun s k g n.
  destruct (well_formed_accepted _ Hwf) as [Hl Hd].
  rewrite (process_normal _ _ Hl Hd Hm) in Hrun. cbn zeta in Hrun.
  fold s k g n in Hrun.
  destruct (site_exists s (fs st)) eqn:Es; simpl in Hrun.
  2:{ inversion Hrun; subst; simpl. rewrite <- app_assoc.
      repeat split; intros; try done. }
  destruct (bool_decide (k ∈ VALID_SPECIAL_KEYS st)) eqn:Ek; simpl in Hrun.
  2:{ apply bool_decide_eq_false_1 in Ek.
      inversion Hrun; subst; simpl. rewrite <- app_assoc.
      repeat split; intros; try done. }
  apply bool_decide_eq_true_1 in Ek.
  destruct (tuple_exists s k g n (fs st)) eqn:Et.
  { inversion Hrun; subst; simpl. rewrite <- app_assoc.
    repeat split; intros; try done. }
  rewrite create_barcode_file_absent in Hrun by exact Et.
  pose proof (store_insert_absent _ _ _ _ _ Et) as Hins. simpl in Hrun.
  destruct (store_insert s k g n (fs st)) as [root'|].
  - destruct Hins as [Hex _]. inversion Hrun; subst; simpl. rewrite <- app_assoc.
    repeat split; intros; try done.
  - inversion Hrun; subst; simpl. rewrite <- app_assoc.
    repeat split; intros; try done.
Qed.

Lemma normal_mode_decision_witness :
  well_formed code_001 = true /\ is_master_key code_001 = false
  /\ fst (process_barcode_locally code_001 false provisioned_state) = true.
Proof.
  assert (Hw : well_formed code_001 = true) by (vm_compute; reflexivity).
  assert (Hm : is_master_key code_001 = false) by (vm_compute; reflexivity).
  split; [exact Hw|]. split; [exact Hm|].
  destruct (process_barcode_locally code_001 false provisioned_state)
    as [r st'] eqn:E.
  destruct (normal_mode_decision _ _ _ _ Hw Hm E) as (_ & _ & _ & _ & H).
  assert (He : site_exists (site_id_of code_001) (fs provisioned_state) = true)
    by (vm_compute; reflexivity).
  assert (Hk : special_key_of code_001 ∈ VALID_SPECIAL_KEYS provisioned_state).
  { apply (bool_decide_unpack _). vm_compute. exact I. }
  assert (Ht : tuple_exists (site_id_of code_001) (special_key_of code_001)
                 (registry_id_of code_001) (numerator_of code_001)
                 (fs provisioned_state) = false) by (vm_compute; reflexivity).
  specialize (H He Hk Ht).
  destruct (store_insert (site_id_of code_001) (special_key_of code_001)
              (registry_id_of code_001) (numerator_of code_001)
              (fs provisioned_state)) eqn:Ei.
  - simpl. exact (proj1 H).
  - vm_compute in Ei. discriminate Ei.
Defined.

(** C1, the claim as stated fails: the site directory exists, the key is
    known and the tuple is absent, yet the call denies, because the insert
    raises [OSError] (a regular file stands where the key's directory would
    be). *)
Lemma normal_mode_insert_failure_denies :
  well_formed code_001 = true /\ is_master_key code_001 = false
  /\ site_exists (site_id_of code_001) (fs key_is_file_state) = true
  /\ special_key_of code_001 ∈ VALID_SPECIAL_KEYS key_is_file_state
  /\ tuple_exists (site_id_of code_001) (special_key_of code_001)
       (registry_id_of code_001) (numerator_of code_001)
       (fs key_is_file_state) = false
  /\ fst (process_barcode_locally code_001 false key_is_file_state) = false.
Proof.
  repeat split; try (vm_compute; reflexivity).
  apply (bool_decide_unpack _). vm_compute. exact I.
Qed.

(** C2 (amended). For a well-formed 20-digit code that is not a Master Key,
    [process_barcode_locally] with the button pressed admits without any
    insert when the tuple's file exists; when it is absent and the insert
    succeeds, it admits after exactly one insert, having added the special
    key to [VALID_SPECIAL_KEYS] if it was not there. *)
Theorem override_admission (c : str) (st : state) (r : bool) (st' : state) :
  well_formed c = true -> is_master_key c = false ->
  process_barcode_locally c true st = (r, st') ->
  let s := site_id_of c in
  let k := special_key_of c in
  let g := registry_id_of c in
  let n := numerator_of c in
  (tuple_exists s k g n (fs st) = true ->
   r = true /\ fs st' = fs st
   /\ VALID_SPECIAL_KEYS st' = VALID_SPECIAL_KEYS st
   /\ output st' = output st ++ [Fields k s g n; ManualOverride])
  /\ (tuple_exists s k g n (fs st) = false ->
      forall root', store_insert s k g n (fs st) = Some root' ->
      r = true /\ fs st' = root' /\ tuple_exists s k g n root' = true
      /\ VALID_SPECIAL_KEYS st' =
         (if bool_decide (k ∈ VALID_SPECIAL_KEYS st) then VALID_SPECIAL_KEYS st
          else VALID_SPECIAL_KEYS st ++ [k])
      /\ output st' = output st ++ [Fields k s g n; ManualOverride; FileCreated]).
Proof.
  intros Hwf Hm Hrun s k g n.
  destruct (well_formed_accepted _ Hwf) as [Hl Hd].
  rewrite (process_override _ _ Hl Hd Hm) in Hrun. cbn zeta in Hrun.
  fold s k g n in Hrun.
  destruct (tuple_exists s k g n (fs st)) eqn:Et.
  - inversion Hrun; subst; simpl. split; [done|]. intros; discriminate.
  - split; [intros; discriminate|]. intros _ root' Hins.
    rewrite create_barcode_file_absent in Hrun by exact Et.
    pose proof (store_insert_absent _ _ _ _ _ Et) as Hex.
    simpl in Hrun. rewrite Hins in Hrun, Hex. destruct Hex as [Hex _].
    inversion Hrun; subst; simpl. rewrite <- app_assoc. done.
Qed.

Lemma override_admission_witness :
  well_formed code_001 = true /\ is_master_key code_001 = false
  /\ fst (process_barcode_locally code_001 true fresh_state) = true
  /\ fst (process_barcode_locally code_001 true registered_state) = true.
Proof.
  assert (Hw : well_formed code_001 = true) by (vm_compute; reflexivity).
  assert (Hm : is_master_key code_001 = false) by (vm_compute; reflexivity).
  split; [exact Hw|]. split; [exact Hm|]. split.
  - destruct (process_barcode_locally code_001 true fresh_state)
      as [r st'] eqn:E.
    destruct (override_admission _ _ _ _ Hw Hm E) as [_ H].
    destruct (store_insert (site_id_of code_001) (special_key_of code_001)
                (registry_id_of code_001) (numerator_of code_001)
                (fs fresh_state)) as [root'|] eqn:Ei.
    + exact (proj1 (H ltac:(vm_compute; reflexivity) root' eq_refl)).
    + vm_compute in Ei. discriminate Ei.
  - destruct (process_barcode_locally code_001 true registered_state)
      as [r st'] eqn:E.
    destruct (override_admission _ _ _ _ Hw Hm E) as [H _].
    exact (proj1 (H ltac:(vm_compute; reflexivity))).
Defined.

(** C2, the claim as stated fails: with the button pressed, the master key
    of a site that has no directory is denied. *)
Lemma override_denies_master_key_of_unknown_site :
  well_formed master_001 = true
  /\ fst (process_barcode_locally master_001 true fresh_state) = false.
Proof. split; vm_compute; reflexivity. Qed.

(** C3. A well-formed 20-digit code of the Master Key shape is the prefix,
    a site identifier and the suffix; whatever the button state, it is
    admitted exactly when that site has a directory, and neither the file
    tree nor the key list changes: no site is provisioned. *)
Theorem master_key_decision (c : str) (ov : bool) (st : state) (r : bool)
  (st' : state) :
  well_formed c = true -> is_master_key c = true ->
  process_barcode_locally c ov st = (r, st') ->
  let site := slice_from_to_end 9 8 c in
  c = MASTER_KEY_PREFIX ++ site ++ MASTER_KEY_SUFFIX
  /\ r = site_exists site (fs st)
  /\ fs st' = fs st
  /\ VALID_SPECIAL_KEYS st' = VALID_SPECIAL_KEYS st.
Proof.
  intros Hwf Hm Hrun site.
  destruct (well_formed_accepted _ Hwf) as [Hl Hd].
  split; [by apply master_key_shape|].
  rewrite (process_master _ _ _ Hl Hd Hm) in Hrun. cbn zeta in Hrun.
  fold site in Hrun.
  destruct (site_exists site (fs st)); by inversion Hrun; subst.
Qed.

Lemma master_key_decision_witness :
  well_formed master_001 = true /\ is_master_key master_001 = true
  /\ fst (process_barcode_locally master_001 false registered_state) = true
  /\ fst (process_barcode_locally master_001 true fresh_state) = false.
Proof.
  assert (Hw : well_formed master_001 = true) by (vm_compute; reflexivity).
  assert (Hm : is_master_key master_001 = true) by (vm_compute; reflexivity).
  split; [exact Hw|]. split; [exact Hm|]. split.
  - destruct (process_barcode_locally master_001 false registered_state)
      as [r st'] eqn:E.
    destruct (master_key_decision _ _ _ _ _ Hw Hm E) as (_ & -> & _).
    vm_compute; reflexivity.
  - destruct (process_barcode_locally master_001 true fresh_state)
      as [r st'] eqn:E.
    destruct (master_key_decision _ _ _ _ _ Hw Hm E) as (_ & -> & _).
    vm_compute; reflexivity.
Defined.

(** What the format check refuses is denied with one line of output and
    nothing else: no field is taken, the file tree is not consulted. *)
Lemma refused_format_denied (c : str) (ov : bool) (st : state) :
  length c ≠ 20%nat \/ isdigit c = false ->
  process_barcode_locally c ov st = (false, printed [MustBe20Digits] st).
Proof.
  intros H. apply process_malformed. destruct H as [H | ->].
  - apply Nat.eqb_neq in H. by rewrite H.
  - apply orb_true_r.
Qed.

Lemma digit_ranges_split :
  Forall (fun r => r = (48, 57) \/ 178 <= fst r) digit_ranges.
Proof.
  unfold digit_ranges.
  repeat (apply Forall_cons; split;
          [first [by left | right; simpl; apply N.leb_le; reflexivity]|]).
  apply Forall_nil_2.
Qed.

(** Among the ASCII characters, [str.isdigit] accepts the decimal digits
    only. *)
Lemma ascii_isdigit_decimal (x : char) :
  x < 128 -> char_isdigit x = true -> is_decimal_digit x = true.
Proof.
  intros Hx [r [Hin Hr]]%existsb_exists.
  pose proof digit_ranges_split as Hall. rewrite Forall_forall in Hall.
  apply list_elem_of_In in Hin. destruct (Hall _ Hin) as [-> | Hge]; [exact Hr|].
  apply andb_prop in Hr as [Hlo _]. apply N.leb_le in Hlo. lia.
Qed.

(** A string with an ASCII character that is not a decimal digit, or of a
    length other than 20, is denied whatever the button state. *)
Lemma ascii_malformed_denied (c : str) (ov : bool) (st : state) :
  length c ≠ 20%nat
  \/ (exists x, x ∈ c /\ x < 128 /\ is_decimal_digit x = false) ->
  process_barcode_locally c ov st = (false, printed [MustBe20Digits] st).
Proof.
  intros [H | (x & Hin & Hx & Hnd)]; apply refused_format_denied; [by left|].
  right. unfold isdigit. apply andb_false_intro2.
  apply not_true_is_false. intros Hall. rewrite forallb_forall in Hall.
  apply list_elem_of_In in Hin. specialize (Hall _ Hin).
  apply ascii_isdigit_decimal in Hall; [congruence | exact Hx].
Qed.

(** C4, the code at the failing input: twenty SUPERSCRIPT TWO characters
    are no decimal digits, yet [str.isdigit] accepts them; with the button
    pressed the code is taken apart, its file is created and the call
    admits. The same happens when the code arrives in a request. *)
Theorem superscript_digits_accepted :
  length superscript_code = 20%nat
  /\ forallb is_decimal_digit superscript_code = false
  /\ fst (process_barcode_locally superscript_code true fresh_state) = true
  /\ tuple_exists (site_id_of superscript_code)
       (special_key_of superscript_code) (registry_id_of superscript_code)
       (numerator_of superscript_code)
       (fs (snd (process_barcode_locally superscript_code true fresh_state)))
     = true
  /\ VALID_SPECIAL_KEYS
       (snd (process_barcode_locally superscript_code true fresh_state))
     = [lit ""; repeat 178 5]
  /\ fst (handle superscript_request fresh_state) = Some reply_open.
Proof. repeat split; vm_compute; reflexivity. Qed.

(** C5 (amended). For a well-formed 20-digit code that is not a Master
    Key, whose tuple is absent, whose site directory exists and whose
    special key is known: the first call with the button not pressed admits
    and registers the tuple when the insert succeeds, and denies when the
    insert raises [OSError]; the call that follows denies in both cases and
    changes neither the file tree nor the key list. *)
Theorem anti_replay (c : str) (st : state) (r1 : bool) (st1 : state)
  (r2 : bool) (st2 : state) :
  well_formed c = true -> is_master_key c = false ->
  let s := site_id_of c in
  let k := special_key_of c in
  let g := registry_id_of c in
  let n := numerator_of c in
  tuple_exists s k g n (fs st) = false ->
  site_exists s (fs st) = true ->
  k ∈ VALID_SPECIAL_KEYS st ->
  process_barcode_locally c false st = (r1, st1) ->
  process_barcode_locally c false st1 = (r2, st2) ->
  match store_insert s k g n (fs st) with
  | Some root' => r1 = true /\ fs st1 = root' /\ tuple_exists s k g n root' = true
  | None => r1 = false /\ fs st1 = fs st
  end
  /\ r2 = false /\ fs st2 = fs st1
  /\ VALID_SPECIAL_KEYS st2 = VALID_SPECIAL_KEYS st.
Proof.
  intros Hwf Hm s k g n Ht Hs Hk Hrun1 Hrun2.
  destruct (well_formed_accepted _ Hwf) as [Hl Hd].
  rewrite (process_normal _ _ Hl Hd Hm) in Hrun1.
  rewrite (process_normal _ _ Hl Hd Hm) in Hrun2.
  cbn zeta in Hrun1, Hrun2. fold s k g n in Hrun1, Hrun2.
  rewrite Hs, (bool_decide_eq_true_2 _ Hk), Ht in Hrun1.
  cbn [negb] in Hrun1.
  rewrite create_barcode_file_absent in Hrun1 by exact Ht.
  cbn [printed fs VALID_SPECIAL_KEYS output] in Hrun1.
  pose proof (store_insert_absent _ _ _ _ _ Ht) as Hins.
  destruct (store_insert s k g n (fs st)) as [root'|] eqn:Ei.
  - destruct Hins as [Hex _].
    injection Hrun1 as <- <-. cbn [fs VALID_SPECIAL_KEYS output] in Hrun2.
    rewrite (tuple_exists_site_exists _ _ _ _ _ Hex),
      (bool_decide_eq_true_2 _ Hk), Hex in Hrun2.
    cbn [negb] in Hrun2. injection Hrun2 as <- <-. done.
  - injection Hrun1 as <- <-.
    cbn [printed fs VALID_SPECIAL_KEYS output] in Hrun2.
    rewrite Hs, (bool_decide_eq_true_2 _ Hk), Ht in Hrun2.
    cbn [negb] in Hrun2.
    rewrite create_barcode_file_absent in Hrun2 by exact Ht.
    cbn [printed fs VALID_SPECIAL_KEYS output] in Hrun2.
    rewrite Ei in Hrun2. injection Hrun2 as <- <-. done.
Qed.

Lemma anti_replay_witness :
  fst (process_barcode_locally code_001 false provisioned_state) = true
  /\ fst (process_barcode_locally code_001 false
            (snd (process_barcode_locally code_001 false provisioned_state)))
     = false.
Proof.
  assert (Hw : well_formed code_001 = true) by (vm_compute; reflexivity).
  assert (Hm : is_master_key code_001 = false) by (vm_compute; reflexivity).
  assert (Ht : tuple_exists (site_id_of code_001) (special_key_of code_001)
                 (registry_id_of code_001) (numerator_of code_001)
                 (fs provisioned_state) = false) by (vm_compute; reflexivity).
  assert (He : site_exists (site_id_of code_001) (fs provisioned_state) = true)
    by (vm_compute; reflexivity).
  assert (Hk : special_key_of code_001 ∈ VALID_SPECIAL_KEYS provisioned_state).
  { apply (bool_decide_unpack _). vm_compute. exact I. }
  destruct (process_barcode_locally code_001 false provisioned_state)
    as [r1 st1] eqn:E1.
  destruct (process_barcode_locally code_001 false st1) as [r2 st2] eqn:E2.
  pose proof (anti_replay _ _ _ _ _ _ Hw Hm Ht He Hk E1 E2) as (H1 & H2 & _).
  simpl. rewrite E2. simpl. split; [|exact H2].
  destruct (store_insert (site_id_of code_001) (special_key_of code_001)
              (registry_id_of code_001) (numerator_of code_001)
              (fs provisioned_state)) eqn:Ei.
  - exact (proj1 H1).
  - vm_compute in Ei. discriminate Ei.
Defined.

(** C5, the claim as stated fails: all its preconditions hold, yet the
    first call denies, because the insert raises [OSError] (a regular file
    stands where the registry's directory would be). *)
Lemma first_call_denies_on_insert_failure :
  well_formed code_001 = true /\ is_master_key code_001 = false
  /\ tuple_exists (site_id_of code_001) (special_key_of code_001)
       (registry_id_of code_001) (numerator_of code_001)
       (fs registry_is_file_state) = false
  /\ site_exists (site_id_of code_001) (fs registry_is_file_state) = true
  /\ special_key_of code_001 ∈ VALID_SPECIAL_KEYS registry_is_file_state
  /\ fst (process_barcode_locally code_001 false registry_is_file_state) = false.
Proof.
  repeat split; try (vm_compute; reflexivity).
  apply (bool_decide_unpack _). vm_compute. exact I.
Qed.

(** Every denial leaves the file tree as it was; the key list changes only
    with the button pressed; a Master Key changes neither. *)
Lemma mutation_frame (c : str) (ov : bool) (st : state) (r : bool)
  (st' : state) :
  process_barcode_locally c ov st = (r, st') ->
  (r = false -> fs st' = fs st)
  /\ (ov = false -> VALID_SPECIAL_KEYS st' = VALID_SPECIAL_KEYS st)
  /\ (is_master_key c = true ->
      fs st' = fs st /\ VALID_SPECIAL_KEYS st' = VALID_SPECIAL_KEYS st)
  /\ (r = false -> VALID_SPECIAL_KEYS st' ≠ VALID_SPECIAL_KEYS st ->
      ov = true /\ is_master_key c = false
      /\ store_insert (site_id_of c) (special_key_of c) (registry_id_of c)
           (numerator_of c) (fs st) = None).
Proof.
  intros Hrun.
  destruct (negb (Nat.eqb (length c) 20) || negb (isdigit c)) eqn:Ef.
  { rewrite (process_malformed _ _ _ Ef) in Hrun. by inversion Hrun; subst. }
  apply orb_false_elim in Ef as [Hl Hd].
  apply negb_false_iff, Nat.eqb_eq in Hl. apply negb_false_iff in Hd.
  destruct (is_master_key c) eqn:Em.
  { rewrite (process_master _ _ _ Hl Hd Em) in Hrun. cbn zeta in Hrun.
    destruct (site_exists _ (fs st)); by inversion Hrun; subst. }
  destruct ov.
  - rewrite (process_override _ _ Hl Hd Em) in Hrun. cbn zeta in Hrun.
    destruct (tuple_exists _ _ _ _ (fs st)) eqn:Et.
    { by inversion Hrun; subst. }
    rewrite create_barcode_file_absent in Hrun by exact Et. simpl in Hrun.
    destruct (store_insert _ _ _ _ (fs st)); inversion Hrun; subst; simpl.
    + repeat split; intros; done.
    + repeat split; intros; done.
  - rewrite (process_normal _ _ Hl Hd Em) in Hrun. cbn zeta in Hrun.
    destruct (site_exists _ (fs st)); simpl in Hrun;
      [|by inversion Hrun; subst].
    destruct (bool_decide _); simpl in Hrun; [|by inversion Hrun; subst].
    destruct (tuple_exists _ _ _ _ (fs st)) eqn:Et;
      [by inversion Hrun; subst|].
    rewrite create_barcode_file_absent in Hrun by exact Et. simpl in Hrun.
    destruct (store_insert _ _ _ _ (fs st)); inversion Hrun; subst; simpl;
      repeat split; intros; done.
Qed.

(** C6, the code at the failing input: with the button pressed, a new
    special key and a regular file where the site directory would be, the
    key is appended to [VALID_SPECIAL_KEYS], the insert raises [OSError] and
    the call denies: a denying call has changed the key list. *)
Theorem denied_override_grows_key_list :
  well_formed code_001 = true /\ is_master_key code_001 = false
  /\ process_barcode_locally code_001 true site_is_file_state =
     (false,
      State (fs site_is_file_state) [lit ""; lit "12345"]
        [Fields (lit "12345") (lit "001") (lit "01") (lit "0000000001");
         ManualOverride; FileError]).
Proof. repeat split; vm_compute; reflexivity. Qed.

(** ** Claims on the request handler *)

Lemma split_colon_fields (s : str) :
  split colon s =
  before_colon s ::
  match after_colon s with
  | Some r => split colon r
  | None => []
  end.
Proof.
  induction s as [|c r IH]; simpl; [done|].
  destruct (bool_decide (c = colon)); [done|]. by rewrite IH.
Qed.

Lemma split_colon_first (s : str) :
  split colon s !! 0%nat = Some (before_colon s).
Proof. by rewrite split_colon_fields. Qed.

Lemma split_colon_second (s : str) :
  split colon s !! 1%nat = second_field s.
Proof.
  rewrite split_colon_fields. unfold second_field. simpl.
  destruct (after_colon s) as [r|]; simpl; [|done].
  apply split_colon_first.
Qed.

Lemma button_state_parsed (message : str) :
  bool_decide (1 < length (split colon message))%nat
  && bool_decide (split colon message !! 1%nat = Some (lit "True"))
  = override_flag message.
Proof.
  unfold override_flag. rewrite <- split_colon_second.
  destruct (bool_decide (split colon message !! 1%nat = Some (lit "True")))
    eqn:E; [|apply andb_false_r].
  apply bool_decide_eq_true_1, lookup_lt_Some in E.
  by rewrite bool_decide_eq_true_2.
Qed.

Lemma after_colon_None (s : str) : after_colon s = None <-> colon ∉ s.
Proof.
  induction s as [|c r IH]; simpl.
  - split; [intros _; apply not_elem_of_nil | done].
  - rewrite not_elem_of_cons. destruct (bool_decide (c = colon)) eqn:E.
    + apply bool_decide_eq_true_1 in E. split; [done | intros [H _]; congruence].
    + apply bool_decide_eq_false_1 in E. rewrite IH. split; [|tauto].
      intros H; split; [congruence | done].
Qed.

Lemma before_colon_no_colon (s : str) : colon ∉ s -> before_colon s = s.
Proof.
  induction s as [|c r IH]; simpl; [done|].
  rewrite not_elem_of_cons. intros [Hc Hr].
  rewrite bool_decide_eq_false_2 by congruence. by rewrite IH.
Qed.

(** A request whose bytes decode to a non-empty message. *)
Lemma handle_message (data : list byte) (raises : bool) (message : str)
  (st : state) :
  decode_utf8 (bytes_strip data) = Some message -> message ≠ [] ->
  handle (Connection (Some data) raises) st =
  let barcode := before_colon message in
  let ov := override_flag message in
  let (ok, st1) :=
    process_barcode_locally barcode ov (printed [NetworkRequest barcode ov] st) in
  if raises then (None, printed [HandlerError] st1)
  else (Some (if ok then reply_open else reply_close), st1).
Proof.
  intros Hd Hne. unfold handle. simpl. rewrite Hd.
  rewrite bool_decide_eq_false_2 by done.
  rewrite button_state_parsed, split_colon_first. simpl.
  unfold bind, print, printed, ret. simpl.
  destruct (process_barcode_locally _ _ _) as [ok st1].
  by destruct raises.
Qed.

Lemma handle_message_reply (data : list byte) (message : str) (st : state)
  (r : option reply) (st' : state) :
  decode_utf8 (bytes_strip data) = Some message -> message ≠ [] ->
  handle (Connection (Some data) false) st = (r, st') ->
  exists ok,
    process_barcode_locally (before_colon message) (override_flag message)
      (printed [NetworkRequest (before_colon message) (override_flag message)] st)
    = (ok, st')
    /\ r = Some (if ok then reply_open else reply_close).
Proof.
  intros Hdec Hne Hrun.
  rewrite (handle_message _ _ _ _ Hdec Hne) in Hrun. cbn zeta in Hrun.
  destruct (process_barcode_locally _ _ _) as [ok st1].
  inversion Hrun; subst. eauto.
Qed.

(** C10. For every payload received, the handler validates exactly the
    text before the first colon, with the override set if and only if there
    is a second colon-separated field and it is the text [True]; every other
    flag text, and a payload without a colon, is validated with the override
    not set, and the reply is [open] or [close] as the engine decides. Only
    a payload that is empty after stripping, or that is not UTF-8, is not
    validated at all. *)
Theorem override_flag_parsing (conn : connection) (data : list byte)
  (st : state) (r : option reply) (st' : state) :
  received conn = Some data -> sendall_raises conn = false ->
  handle conn st = (r, st') ->
  match decode_utf8 (bytes_strip data) with
  | None => r = None /\ st' = printed [HandlerError] st
  | Some message =>
      if bool_decide (message = []) then r = None /\ st' = st
      else
        let barcode := before_colon message in
        let ov := override_flag message in
        (ov = true <->
         exists rest, after_colon message = Some rest
                      /\ before_colon rest = lit "True")
        /\ (colon ∉ message -> ov = false /\ barcode = message)
        /\ exists ok,
             process_barcode_locally barcode ov
               (printed [NetworkRequest barcode ov] st) = (ok, st')
             /\ r = Some (if ok then reply_open else reply_close)
  end.
Proof.
  intros Hrecv Hsend Hrun.
  destruct conn as [rc sr]; simpl in *; subst.
  destruct (decode_utf8 (bytes_strip data)) as [message|] eqn:Hdec.
  2:{ unfold handle in Hrun. simpl in Hrun. rewrite Hdec in Hrun.
      by inversion Hrun. }
  case_bool_decide as Hne.
  { unfold handle in Hrun. simpl in Hrun. rewrite Hdec in Hrun. subst message.
    by inversion Hrun. }
  cbn zeta. split; [|split].
  - unfold override_flag, second_field.
    rewrite bool_decide_eq_true.
    destruct (after_colon message) as [rest|]; simpl.
    + split; [intros [= H]; eauto | intros (x & [= <-] & ->); done].
    + split; [done | intros (x & [=] & _)].
  - intros Hc. split; [|by apply before_colon_no_colon].
    apply after_colon_None in Hc. unfold override_flag, second_field.
    rewrite Hc. done.
  - by eapply handle_message_reply.
Qed.

Lemma override_flag_parsing_witness :
  let message := lit "12345000000000101001:true" in
  override_flag message = false
  /\ exists ok,
       process_barcode_locally (before_colon message) (override_flag message)
         (printed [NetworkRequest (before_colon message) (override_flag message)]
            provisioned_state)
       = (ok, snd (handle lowercase_flag_request provisioned_state))
       /\ fst (handle lowercase_flag_request provisioned_state)
          = Some (if ok then reply_open else reply_close).
Proof.
  intros message.
  split; [vm_compute; reflexivity|].
  pose proof (override_flag_parsing lowercase_flag_request _
                provisioned_state _ _ eq_refl eq_refl (surjective_pairing _))
    as H.
  change (decode_utf8 (bytes_strip (request_bytes "12345000000000101001:true")))
    with (Some message) in H.
  exact (proj2 (proj2 H)).
Defined.

(** C7 (amended). A request whose payload is empty after stripping gets no
    reply and changes nothing; a payload whose flag is not the text [True]
    is validated with the override not set and answered [open] or [close]
    as the engine decides; an exception raised by [recv] or by the UTF-8
    decoding is caught, printed, and answered by no reply, with the file
    tree and the key list unchanged; an exception raised by [sendall] is
    caught and printed too. In every case the handler returns and the
    server goes on with the next request. *)
Theorem request_boundary (conn : connection) (st : state) (r : option reply)
  (st' : state) :
  handle conn st = (r, st') ->
  (forall data, received conn = Some data -> bytes_strip data = [] ->
     r = None /\ st' = st)
  /\ (received conn = None
      \/ (exists data, received conn = Some data
                       /\ decode_utf8 (bytes_strip data) = None) ->
      r = None /\ st' = printed [HandlerError] st)
  /\ (sendall_raises conn = true ->
      r = None /\ (st' = st \/ HandlerError ∈ output st'))
  /\ (forall data message,
        received conn = Some data ->
        decode_utf8 (bytes_strip data) = Some message -> message ≠ [] ->
        override_flag message = false -> sendall_raises conn = false ->
        exists ok,
          process_barcode_locally (before_colon message) false
            (printed [NetworkRequest (before_colon message) false] st)
          = (ok, st')
          /\ r = Some (if ok then reply_open else reply_close))
  /\ (forall rest,
        serve (conn :: rest) st =
        (r :: fst (serve rest st'), snd (serve rest st'))).
Proof.
  intros Hrun. repeat split.
  - destruct conn as [rc sr]. simpl in *. subst rc.
    unfold handle in Hrun. simpl in Hrun. rewrite H0 in Hrun.
    by inversion Hrun.
  - destruct conn as [rc sr]. simpl in *. subst rc.
    unfold handle in Hrun. simpl in Hrun. rewrite H0 in Hrun.
    by inversion Hrun.
  - destruct H as [H | (data & H & Hd)]; destruct conn as [rc sr];
      simpl in *; subst rc; unfold handle in Hrun; simpl in Hrun.
    + by inversion Hrun.
    + rewrite Hd in Hrun. by inversion Hrun.
  - destruct H as [H | (data & H & Hd)]; destruct conn as [rc sr];
      simpl in *; subst rc; unfold handle in Hrun; simpl in Hrun.
    + by inversion Hrun.
    + rewrite Hd in Hrun. by inversion Hrun.
  - destruct conn as [[data|] sr]; simpl in *; subst;
      unfold handle in Hrun; simpl in Hrun; [|by inversion Hrun].
    destruct (decode_utf8 (bytes_strip data)) as [message|] eqn:Hd;
      [|by inversion Hrun].
    destruct (bool_decide (message = [])); [by inversion Hrun|].
    unfold bind, print, ret in Hrun. simpl in Hrun.
    destruct (process_barcode_locally _ _ _) as [ok st1].
    by inversion Hrun.
  - destruct conn as [[data|] sr]; simpl in *; subst;
      unfold handle in Hrun; simpl in Hrun.
    2:{ inversion Hrun; subst. right. simpl. apply elem_of_app. right.
        apply list_elem_of_here. }
    destruct (decode_utf8 (bytes_strip data)) as [message|] eqn:Hd.
    2:{ inversion Hrun; subst. right. simpl. apply elem_of_app. right.
        apply list_elem_of_here. }
    destruct (bool_decide (message = [])); [inversion Hrun; by left|].
    unfold bind, print, ret in Hrun. simpl in Hrun.
    destruct (process_barcode_locally _ _ _) as [ok st1].
    inversion Hrun; subst. right. simpl. apply elem_of_app. right.
    apply list_elem_of_here.
  - intros data message Hrecv Hdec Hne Hflag Hsend.
    destruct conn as [rc sr]; simpl in *; subst.
    destruct (handle_message_reply _ _ _ _ _ Hdec Hne Hrun) as (ok & H).
    rewrite Hflag in H. eauto.
  - intros rest. simpl. unfold bind, ret. rewrite Hrun.
    by destruct (serve rest st').
Qed.

Lemma request_boundary_witness :
  fst (handle blank_request provisioned_state) = None
  /\ snd (handle blank_request provisioned_state) = provisioned_state
  /\ fst (handle invalid_utf8_request provisioned_state) = None.
Proof.
  pose proof (request_boundary blank_request provisioned_state _ _
                (surjective_pairing _)) as (H1 & _).
  pose proof (request_boundary invalid_utf8_request provisioned_state _ _
                (surjective_pairing _)) as (_ & H2 & _).
  destruct (H1 _ eq_refl ltac:(vm_compute; reflexivity)) as [Ha Hb].
  split; [exact Ha|]. split; [exact Hb|].
  refine (proj1 (H2 (or_intror (ex_intro _ _ (conj eq_refl _))))).
  vm_compute; reflexivity.
Defined.

(** C7, the claim as stated fails: a request with a valid code and the
    flag text [maybe] is not denied; it is validated with the override not
    set and answered [open]. *)
Lemma garbled_flag_request_opens :
  second_field (lit "12345000000000101001:maybe") = Some (lit "maybe")
  /\ fst (handle garbled_flag_request provisioned_state) = Some reply_open.
Proof. split; vm_compute; reflexivity. Qed.

(** ** Claims on the duplicate suppression *)

Section ScanFacts.

Variable send_data : list N -> bool -> M unit.

(** A scan that is neither a Master Key nor taken with the button
    pressed, when it differs from the remembered code. *)
Lemma handle_scan_new (c : str) (last : option (list N)) (st : state) :
  is_master_key c = false -> last ≠ Some c ->
  handle_scan send_data c false last st
  = (Some c, snd (send_data c false st)).
Proof.
  intros Hm Hne. unfold handle_scan. rewrite Hm. simpl.
  rewrite bool_decide_eq_true_2 by congruence.
  unfold bind, ret. by destruct (send_data c false st).
Qed.

(** The same scan when it is the remembered code: no call of
    [send_data]. *)
Lemma handle_scan_duplicate (c : str) (st : state) :
  is_master_key c = false ->
  handle_scan send_data c false (Some c) st
  = (Some c, snd (play_sound (lit "beep") (printed [DuplicateIgnored c] st))).
Proof.
  intros Hm. unfold handle_scan. rewrite Hm. simpl.
  rewrite bool_decide_eq_false_2 by (intros H; by apply H).
  unfold bind, ret, print, printed. simpl.
  by destruct (play_sound _ _).
Qed.

Lemma play_sound_frame (name : str) (st : state) :
  fs (snd (play_sound name st)) = fs st
  /\ VALID_SPECIAL_KEYS (snd (play_sound name st)) = VALID_SPECIAL_KEYS st
  /\ output (snd (play_sound name st)) =
     output st ++
     (if path_exists (SOUND_PATH name) (fs st) then [Mpg123 (SOUND_PATH name)]
      else []).
Proof.
  unfold play_sound, bind, os_path_exists, print, ret. simpl.
  destruct (path_exists _ (fs st)); simpl; [done|]. by rewrite app_nil_r.
Qed.

End ScanFacts.

(** C8. For a code that is not a Master Key, scanned twice in a row with
    the button not pressed, from the start of [Client.start]: the first
    scan is passed to [send_data] and becomes the remembered code; the
    second is not passed to [send_data], it only prints the notice and plays
    the [beep] sound (when its file exists), and the remembered code stays
    the same. The same holds from any remembered code other than the one
    scanned. *)
Theorem duplicate_scan_suppressed (send_data : list N -> bool -> M unit)
  (c : str) (st : state) :
  is_master_key c = false ->
  let st1 := snd (send_data c false st) in
  let st2 := snd (play_sound (lit "beep") (printed [DuplicateIgnored c] st1)) in
  handle_scan send_data c false initial_last_barcode st = (Some c, st1)
  /\ handle_scan send_data c false (Some c) st1 = (Some c, st2)
  /\ handle_scans send_data [(c, false); (c, false)] initial_last_barcode st
     = (Some c, st2)
  /\ (forall last, last ≠ Some c ->
      handle_scans send_data [(c, false); (c, false)] last st = (Some c, st2))
  /\ fs st2 = fs st1
  /\ VALID_SPECIAL_KEYS st2 = VALID_SPECIAL_KEYS st1
  /\ output st2 =
     output st1 ++ DuplicateIgnored c ::
     (if path_exists (SOUND_PATH (lit "beep")) (fs st1)
      then [Mpg123 (SOUND_PATH (lit "beep"))] else []).
Proof.
  intros Hm st1 st2.
  assert (H1 : handle_scan send_data c false initial_last_barcode st
               = (Some c, st1)) by (by apply handle_scan_new).
  assert (H2 : handle_scan send_data c false (Some c) st1 = (Some c, st2))
    by (by apply handle_scan_duplicate).
  split; [exact H1|]. split; [exact H2|]. split; [|split].
  - simpl. unfold bind at 1. rewrite H1. unfold bind. rewrite H2. done.
  - intros last Hlast. simpl. unfold bind at 1.
    rewrite (handle_scan_new send_data c last st Hm Hlast).
    fold st1. unfold bind. rewrite H2. done.
  - destruct (play_sound_frame (lit "beep") (printed [DuplicateIgnored c] st1))
      as (Hf & Hk & Ho).
    fold st2 in Hf, Hk, Ho. rewrite Hf, Hk, Ho. simpl.
    by rewrite <- app_assoc.
Qed.

Lemma duplicate_scan_suppressed_witness :
  is_master_key code_001 = false
  /\ fst (handle_scans local_dispatch [(code_001, false); (code_001, false)]
            initial_last_barcode provisioned_state) = Some code_001
  /\ output (snd (handle_scans local_dispatch
                    [(code_001, false); (code_001, false)]
                    initial_last_barcode provisioned_state))
     = [Fields (lit "12345") (lit "001") (lit "01") (lit "0000000001");
        FileCreated; DuplicateIgnored code_001].
Proof.
  assert (Hm : is_master_key code_001 = false) by (vm_compute; reflexivity).
  split; [exact Hm|].
  destruct (duplicate_scan_suppressed local_dispatch code_001
              provisioned_state Hm) as (_ & _ & H & _).
  rewrite H. split; [reflexivity | vm_compute; reflexivity].
Defined.

(** ** Claims on the selective wipe *)

Ltac name_cases name item :=
  destruct (decide (name = item)) as [->|?];
  [ rewrite (bool_decide_eq_true_2 (item = item)) by done
  | rewrite (bool_decide_eq_false_2 (name = item)) by done ].

Section WipeFacts.

Variable keep : list (list N).
Variable delete_fault : list N -> node -> option node.

Lemma listdir_elem (m : gmap (list N) node) (name : list N) :
  name ∈ (map_to_list m).*1 <-> is_Some (m !! name).
Proof.
  rewrite list_elem_of_fmap. split.
  - intros ([k v] & -> & H). apply elem_of_map_to_list in H. by eexists.
  - intros [v H]. exists (name, v). split; [done|].
    by apply elem_of_map_to_list.
Qed.

Lemma flat_map_agree {A B} (f g : A -> list B) (l : list A) :
  (forall a, a ∈ l -> f a = g a) -> flat_map f l = flat_map g l.
Proof.
  induction l as [|a l IH]; intros H; simpl; [done|].
  rewrite (H a) by apply list_elem_of_here.
  rewrite IH; [done|]. intros b Hb. apply H. by apply list_elem_of_further.
Qed.

(** One turn of the loop: only the entry [item_name] is touched. *)
Lemma delete_item_spec (item_name : list N) (st : state)
  (m0 : gmap (list N) node) :
  lookup_path BARCODE_DIR (fs st) = Some (Dir m0) ->
  exists fs' m1,
    delete_item keep delete_fault item_name st =
    (tt, State fs' (VALID_SPECIAL_KEYS st)
           (output st ++ item_log keep delete_fault item_name (m0 !! item_name)))
    /\ lookup_path BARCODE_DIR fs' = Some (Dir m1)
    /\ forall name,
         m1 !! name =
         if bool_decide (name = item_name)
         then wiped keep delete_fault name (m0 !! name)
         else m0 !! name.
Proof.
  intros HB. unfold delete_item, item_log, wiped.
  destruct (decide (item_name ∈ keep)) as [Hk|Hk].
  { rewrite !(bool_decide_eq_true_2 _ Hk).
    exists (fs st), m0. unfold ret. rewrite app_nil_r. destruct st.
    split; [done|]. split; [done|]. intros name. name_cases name item_name; [|done].
    rewrite (bool_decide_eq_true_2 _ Hk). by destruct (m0 !! item_name). }
  rewrite !(bool_decide_eq_false_2 _ Hk).
  unfold bind, os_path_isdir, path_isdir, print, shutil_rmtree, os_remove,
    delete_entry, ret. cbn [fs VALID_SPECIAL_KEYS output].
  rewrite !lookup_path_snoc, HB.
  destruct (m0 !! item_name) as [[d|m]|] eqn:Ei;
    cbn [fs VALID_SPECIAL_KEYS output];
    rewrite ?lookup_path_snoc, ?HB, ?Ei.
  - (* a regular file *)
    destruct (delete_fault item_name (File d)) as [residue|] eqn:Ef.
    + destruct (set_entry_lookup _ item_name residue _ _ HB) as (fs' & Hs & Hl).
      rewrite Hs. cbn [fs VALID_SPECIAL_KEYS output]. exists fs', (<[item_name := residue]> m0).
      rewrite <- app_assoc. split; [done|]. split; [done|]. intros name.
      name_cases name item_name.
      * by rewrite lookup_insert_eq, Ei, (bool_decide_eq_false_2 _ Hk).
      * by rewrite lookup_insert_ne.
    + destruct (remove_entry_lookup _ item_name _ _ HB) as (fs' & Hs);
        [by eexists|].
      rewrite Hs. cbn [fs VALID_SPECIAL_KEYS output]. destruct (remove_entry_Some _ _ _ _ Hs) as (m & H1 & H2).
      rewrite HB in H1. inversion H1; subst m.
      exists fs', (delete item_name m0). split; [done|]. split; [done|].
      intros name. name_cases name item_name.
      * by rewrite lookup_delete_eq, Ei, (bool_decide_eq_false_2 _ Hk).
      * by rewrite lookup_delete_ne.
  - (* a directory *)
    destruct (delete_fault item_name (Dir m)) as [residue|] eqn:Ef.
    + destruct (set_entry_lookup _ item_name residue _ _ HB) as (fs' & Hs & Hl).
      rewrite Hs. cbn [fs VALID_SPECIAL_KEYS output]. exists fs', (<[item_name := residue]> m0).
      rewrite <- app_assoc. split; [done|]. split; [done|]. intros name.
      name_cases name item_name.
      * by rewrite lookup_insert_eq, Ei, (bool_decide_eq_false_2 _ Hk).
      * by rewrite lookup_insert_ne.
    + destruct (remove_entry_lookup _ item_name _ _ HB) as (fs' & Hs);
        [by eexists|].
      rewrite Hs. cbn [fs VALID_SPECIAL_KEYS output]. destruct (remove_entry_Some _ _ _ _ Hs) as (m' & H1 & H2).
      rewrite HB in H1. inversion H1; subst m'.
      exists fs', (delete item_name m0). split; [done|]. split; [done|].
      intros name. name_cases name item_name.
      * by rewrite lookup_delete_eq, Ei, (bool_decide_eq_false_2 _ Hk).
      * by rewrite lookup_delete_ne.
  - (* no such entry *)
    exists (fs st), m0. cbn [fs VALID_SPECIAL_KEYS output].
    rewrite <- app_assoc. split; [done|]. split; [done|].
    intros name. name_cases name item_name; [by rewrite Ei | done].
Qed.

(** The whole loop, over names that are listed once each. *)
Lemma delete_items_spec (items : list (list N)) (st : state)
  (m0 : gmap (list N) node) :
  NoDup items ->
  lookup_path BARCODE_DIR (fs st) = Some (Dir m0) ->
  exists fs' m1,
    delete_items keep delete_fault items st =
    (tt, State fs' (VALID_SPECIAL_KEYS st)
           (output st ++
            flat_map (fun i => item_log keep delete_fault i (m0 !! i)) items))
    /\ lookup_path BARCODE_DIR fs' = Some (Dir m1)
    /\ forall name,
         m1 !! name =
         if bool_decide (name ∈ items)
         then wiped keep delete_fault name (m0 !! name)
         else m0 !! name.
Proof.
  revert st m0. induction items as [|item rest IH]; intros st m0 Hnd HB.
  - exists (fs st), m0. simpl. unfold ret. rewrite app_nil_r. destruct st.
    split; [done|]. split; [done|]. intros name.
    first [done | by rewrite bool_decide_eq_false_2 by apply not_elem_of_nil].
  - apply NoDup_cons in Hnd as [Hni Hnd].
    destruct (delete_item_spec item st m0 HB) as (fs1 & m1 & Hrun & HB1 & Hm1).
    destruct (IH (State fs1 (VALID_SPECIAL_KEYS st)
                    (output st ++ item_log keep delete_fault item (m0 !! item)))
                 m1 Hnd HB1) as (fs2 & m2 & Hrun2 & HB2 & Hm2).
    exists fs2, m2. simpl. unfold bind. rewrite Hrun, Hrun2. simpl.
    rewrite <- app_assoc.
    rewrite (flat_map_agree
               (fun i => item_log keep delete_fault i (m1 !! i))
               (fun i => item_log keep delete_fault i (m0 !! i))).
    2:{ intros i Hi. rewrite Hm1. rewrite bool_decide_eq_false_2; [done|].
        intros ->. done. }
    split; [done|]. split; [done|]. intros name. rewrite Hm2, Hm1.
    destruct (decide (name = item)) as [->|Hne].
    + rewrite (bool_decide_eq_false_2 (item ∈ rest) Hni).
      rewrite (bool_decide_eq_true_2 (item = item) eq_refl).
      by rewrite (bool_decide_eq_true_2 (item ∈ item :: rest))
        by apply list_elem_of_here.
    + rewrite (bool_decide_eq_false_2 (name = item) Hne).
      destruct (decide (name ∈ rest)) as [Hin|Hnin].
      * rewrite (bool_decide_eq_true_2 (name ∈ rest) Hin).
        by rewrite (bool_decide_eq_true_2 (name ∈ item :: rest))
          by (by apply list_elem_of_further).
      * rewrite (bool_decide_eq_false_2 (name ∈ rest) Hnin).
        by rewrite (bool_decide_eq_false_2 (name ∈ item :: rest))
          by (by apply not_elem_of_cons).
Qed.

(** The wipe as a whole. *)
Lemma wipe_except_spec (st : state) :
  exists fs' sound,
    wipe_except keep delete_fault st =
    (tt, State fs' (VALID_SPECIAL_KEYS st)
           (output st ++ CleanupStart ::
            match lookup_path BARCODE_DIR (fs st) with
            | Some (Dir m0) =>
                flat_map (fun i => item_log keep delete_fault i (m0 !! i))
                  (map_to_list m0).*1
                ++ CleanupComplete :: sound
            | _ => [NoDatabase]
            end))
    /\ forall name,
         lookup_path (BARCODE_DIR ++ [name]) fs' =
         wiped keep delete_fault name
           (lookup_path (BARCODE_DIR ++ [name]) (fs st)).
Proof.
  unfold wipe_except, bind, print, os_path_isdir, path_isdir, os_listdir.
  cbn [fs VALID_SPECIAL_KEYS output].
  destruct (lookup_path BARCODE_DIR (fs st)) as [[d|m0]|] eqn:HB;
    cbn [negb fs VALID_SPECIAL_KEYS output].
  - exists (fs st), []. split; [by rewrite <- app_assoc|]. intros name.
    by rewrite lookup_path_snoc, HB.
  - destruct (delete_items_spec (map_to_list m0).*1
                (State (fs st) (VALID_SPECIAL_KEYS st)
                   (output st ++ [CleanupStart])) m0
                (NoDup_fst_map_to_list m0) HB)
      as (fs' & m1 & Hrun & HB1 & Hm1).
    cbn [fs VALID_SPECIAL_KEYS output] in Hrun.
    rewrite HB, Hrun. cbn [fs VALID_SPECIAL_KEYS output].
    match goal with
    | |- context [play_sound ?n ?s] =>
        destruct (play_sound_frame n s) as (Hf & Hk & Ho);
        destruct (play_sound n s) as [[] st2]
    end.
    cbn [fs VALID_SPECIAL_KEYS output snd] in Hf, Hk, Ho.
    exists fs', (if path_exists (SOUND_PATH (lit "beep")) fs'
                 then [Mpg123 (SOUND_PATH (lit "beep"))] else []).
    split.
    + destruct st2 as [f2 k2 o2]. simpl in *. subst.
      f_equal. f_equal. rewrite <- !app_assoc. done.
    + intros name. rewrite !lookup_path_snoc, HB, HB1, Hm1.
      case_bool_decide as Hin; [done|].
      rewrite listdir_elem in Hin.
      destruct (m0 !! name); [|done]. exfalso. apply Hin. by eexists.
  - exists (fs st), []. split; [by rewrite <- app_assoc|]. intros name.
    by rewrite lookup_path_snoc, HB.
Qed.

End WipeFacts.

(** C9. For every file tree, allow-list and course of the deletions, the
    wipe keeps every top-level entry of [BARCODE_DIR] named in the
    allow-list with all that is below it; every other top-level entry is
    removed with all that is below it, at any depth, unless its deletion
    raises [OSError], in which case the error is printed and the loop goes
    on: what the wipe does to one entry does not depend on the others. No
    entry appears, the key list is unchanged, and the loop runs to its
    end. *)
Theorem selective_wipe (keep : list (list N))
  (delete_fault : list N -> node -> option node) (st st' : state) :
  wipe_except keep delete_fault st = (tt, st') ->
  (forall name nd,
     name ∈ keep ->
     lookup_path (BARCODE_DIR ++ [name]) (fs st) = Some nd ->
     lookup_path (BARCODE_DIR ++ [name]) (fs st') = Some nd)
  /\ (forall name nd,
        name ∉ keep ->
        lookup_path (BARCODE_DIR ++ [name]) (fs st) = Some nd ->
        match delete_fault name nd with
        | None => forall q, lookup_path (BARCODE_DIR ++ name :: q) (fs st') = None
        | Some residue =>
            lookup_path (BARCODE_DIR ++ [name]) (fs st') = Some residue
            /\ DeleteError name ∈ output st'
        end)
  /\ (forall name,
        lookup_path (BARCODE_DIR ++ [name]) (fs st) = None ->
        lookup_path (BARCODE_DIR ++ [name]) (fs st') = None)
  /\ (path_isdir BARCODE_DIR (fs st) = true -> CleanupComplete ∈ output st')
  /\ VALID_SPECIAL_KEYS st' = VALID_SPECIAL_KEYS st.
Proof.
  intros Hrun.
  destruct (wipe_except_spec keep delete_fault st) as (fs' & sound & Heq & Hl).
  rewrite Hrun in Heq. apply (f_equal snd) in Heq. cbn [snd] in Heq.
  subst st'. clear Hrun.
  cbn [fs VALID_SPECIAL_KEYS output].
  split; [|split; [|split; [|split]]].
  - intros name nd Hk Hn. rewrite Hl, Hn. unfold wiped.
    by rewrite bool_decide_eq_true_2.
  - intros name nd Hk Hn.
    assert (lookup_path (BARCODE_DIR ++ [name]) fs' = delete_fault name nd) as Hw.
    { rewrite Hl, Hn. unfold wiped. by rewrite bool_decide_eq_false_2. }
    destruct (delete_fault name nd) as [residue|] eqn:Ef.
    + split; [done|].
      rewrite lookup_path_snoc in Hn.
      destruct (lookup_path BARCODE_DIR (fs st)) as [[d|m0]|]; try done.
      apply elem_of_app. right. apply list_elem_of_further.
      apply elem_of_app. left. apply list_elem_of_In, in_flat_map.
      exists name. split.
      * apply list_elem_of_In, listdir_elem. by eexists.
      * rewrite Hn. unfold item_log. rewrite bool_decide_eq_false_2 by done.
        destruct nd; rewrite Ef; right; by left.
    + intros q. change (BARCODE_DIR ++ name :: q)
        with ((BARCODE_DIR ++ [name]) ++ q).
      by rewrite lookup_path_app, Hw.
  - intros name Hn. by rewrite Hl, Hn.
  - unfold path_isdir.
    destruct (lookup_path BARCODE_DIR (fs st)) as [[d|m0]|]; try done.
    intros _. apply elem_of_app. right. apply list_elem_of_further.
    apply elem_of_app. right. apply list_elem_of_here.
  - done.
Qed.

Lemma selective_wipe_witness :
  lookup_path (BARCODE_DIR ++ [lit "sounds"])
    (fs (snd (delete_database no_fault installed_state)))
  = Some (Dir {[ lit "beep.mp3" := File [] ]})
  /\ lookup_path (BARCODE_DIR ++ [lit "001"; lit "12345"; lit "01"])
       (fs (snd (delete_database no_fault installed_state)))
     = None
  /\ lookup_path (BARCODE_DIR ++ [lit "001"])
       (fs (snd (delete_database fault_on_001 installed_state)))
     = Some (Dir ∅)
  /\ lookup_path (BARCODE_DIR ++ [lit "notes.txt"])
       (fs (snd (delete_database fault_on_001 installed_state)))
     = None.
Proof.
  unfold delete_database.
  destruct (wipe_except FILES_TO_KEEP no_fault installed_state)
    as [[] st1] eqn:E1.
  destruct (wipe_except FILES_TO_KEEP fault_on_001 installed_state)
    as [[] st2] eqn:E2.
  destruct (selective_wipe _ _ _ _ E1) as (Hkeep & Hdel & _).
  destruct (selective_wipe _ _ _ _ E2) as (_ & Hdel2 & _).
  cbn [snd]. split; [|split; [|split]].
  - apply Hkeep.
    + apply (bool_decide_unpack _). vm_compute. exact I.
    + vm_compute; reflexivity.
  - refine (Hdel (lit "001") _ _ _ [lit "12345"; lit "01"]).
    + apply (bool_decide_unpack _). vm_compute. exact I.
    + vm_compute; reflexivity.
  - refine (proj1 (Hdel2 (lit "001") _ _ _)).
    + apply (bool_decide_unpack _). vm_compute. exact I.
    + vm_compute; reflexivity.
  - refine (Hdel2 (lit "notes.txt") (File []) _ _ []).
    + apply (bool_decide_unpack _). vm_compute. exact I.
    + vm_compute; reflexivity.
Defined.

(** ** What the file-system calls keep *)

Lemma same_kind_refl (x : node) : same_kind x x.
Proof. by destruct x. Qed.

Lemma same_kind_trans (x y z : node) :
  same_kind x y -> same_kind y z -> same_kind x z.
Proof. by destruct x, y, z. Qed.

Lemma makedirs_keeps (p q : path) (n n' x : node) :
  makedirs p n = Some n' -> lookup_path q n = Some x ->
  exists x', lookup_path q n' = Some x' /\ same_kind x x'.
Proof.
  revert n n' q x.
  induction p as [|c p IH]; intros [d|m] n' q x H Hq; simpl in H; try done.
  - inversion H; subst. exists x. split; [done | apply same_kind_refl].
  - destruct (makedirs p (default (Dir ∅) (m !! c))) as [child'|] eqn:E; [|done].
    inversion H; subst. destruct q as [|a q]; simpl in *.
    + inversion Hq; subst. by eexists.
    + destruct (m !! a) as [child|] eqn:Ea; [|done].
      destruct (decide (a = c)) as [->|Hne].
      * rewrite lookup_insert_eq. rewrite Ea in E. simpl in E. by eapply IH.
      * rewrite lookup_insert_ne, Ea by done. exists x.
        split; [done | apply same_kind_refl].
Qed.

Lemma makedirs_new (p q : path) (n n' x' : node) :
  makedirs p n = Some n' -> lookup_path q n' = Some x' ->
  is_Some (lookup_path q n) \/ q `prefix_of` p.
Proof.
  revert n n' q x'.
  induction p as [|c p IH]; intros [d|m] n' q x' H Hq; simpl in H; try done.
  - inversion H; subst. left. by eexists.
  - destruct (makedirs p (default (Dir ∅) (m !! c))) as [child'|] eqn:E; [|done].
    inversion H; subst. destruct q as [|a q]; simpl in *.
    + left. by eexists.
    + destruct (decide (a = c)) as [->|Hne].
      * rewrite lookup_insert_eq in Hq.
        destruct (IH _ _ _ _ E Hq) as [Hs | Hp].
        -- destruct (m !! c) as [child|]; simpl in Hs; [by left|].
           destruct q as [|b q].
           ++ right. apply prefix_cons, prefix_nil.
           ++ simpl in Hs. rewrite lookup_empty in Hs. by destruct Hs.
        -- right. by apply prefix_cons.
      * rewrite lookup_insert_ne in Hq by done. left.
        destruct (m !! a); [by eexists | done].
Qed.

Lemma makedirs_existing (p : path) (n : node) :
  path_isdir p n = true -> makedirs p n = Some n.
Proof.
  unfold path_isdir. revert n.
  induction p as [|c p IH]; intros [d|m] H; simpl in *; try done.
  destruct (m !! c) as [child|] eqn:E; [|done]. simpl.
  rewrite (IH _ H). by rewrite insert_id.
Qed.

Lemma set_entry_file_keeps (dir q : path) (c : list N) (d : list byte)
  (n n' x : node) :
  set_entry dir c (File d) n = Some n' ->
  path_isdir (dir ++ [c]) n = false ->
  lookup_path q n = Some x ->
  exists x', lookup_path q n' = Some x' /\ same_kind x x'.
Proof.
  unfold path_isdir. revert n n' q x.
  induction dir as [|d0 dir IH]; intros [y|m] n' q x H Hnd Hq;
    simpl in H; try done.
  - inversion H; subst. destruct q as [|a q]; simpl in *.
    + inversion Hq; subst. by eexists.
    + destruct (m !! a) as [child|] eqn:Ea; [|done].
      destruct (decide (a = c)) as [->|Hne].
      * rewrite lookup_insert_eq. rewrite Ea in Hnd.
        destruct child as [d1|m1]; [|done].
        destruct q; [|done]. inversion Hq; subst. by eexists.
      * rewrite lookup_insert_ne, Ea by done. exists x.
        split; [done | apply same_kind_refl].
  - destruct (m !! d0) as [child|] eqn:E0; [|done].
    destruct (set_entry dir c (File d) child) as [child'|] eqn:Es; [|done].
    inversion H; subst. destruct q as [|a q]; simpl in *.
    + inversion Hq; subst. by eexists.
    + rewrite E0 in Hnd.
      destruct (decide (a = d0)) as [->|Hne].
      * rewrite lookup_insert_eq. rewrite E0 in Hq. by eapply IH.
      * rewrite lookup_insert_ne by done. destruct (m !! a); [|done].
        exists x. split; [done | apply same_kind_refl].
Qed.

Lemma set_entry_file_new (dir q : path) (c : list N) (d : list byte)
  (n n' x' : node) :
  set_entry dir c (File d) n = Some n' ->
  lookup_path q n' = Some x' ->
  is_Some (lookup_path q n) \/ q = dir ++ [c].
Proof.
  revert n n' q x'.
  induction dir as [|d0 dir IH]; intros [y|m] n' q x' H Hq;
    simpl in H; try done.
  - inversion H; subst. destruct q as [|a q]; simpl in *.
    + left. by eexists.
    + destruct (decide (a = c)) as [->|Hne].
      * rewrite lookup_insert_eq in Hq. destruct q; [by right | done].
      * rewrite lookup_insert_ne in Hq by done. left.
        destruct (m !! a); [by eexists | done].
  - destruct (m !! d0) as [child|] eqn:E0; [|done].
    destruct (set_entry dir c (File d) child) as [child'|] eqn:Es; [|done].
    inversion H; subst. destruct q as [|a q]; simpl in *.
    + left. by eexists.
    + destruct (decide (a = d0)) as [->|Hne].
      * rewrite lookup_insert_eq in Hq. rewrite E0.
        destruct (IH _ _ _ _ Es Hq) as [Hs | ->]; [by left | by right].
      * rewrite lookup_insert_ne in Hq by done. left.
        destruct (m !! a); [by eexists | done].
Qed.

(** A successful insert keeps every entry, as a file or as a directory. *)
Lemma store_insert_keeps (s k g nm : list N) (q : path) (root root' x : node) :
  store_insert s k g nm root = Some root' ->
  lookup_path q root = Some x ->
  exists x', lookup_path q root' = Some x' /\ same_kind x x'.
Proof.
  unfold store_insert, open_w. intros H Hq.
  destruct (makedirs _ root) as [root1|] eqn:Em; [|done].
  destruct (path_isdir _ root1) eqn:Ed; [done|].
  destruct (makedirs_keeps _ _ _ _ _ Em Hq) as (x1 & Hq1 & Hk1).
  destruct (set_entry_file_keeps _ _ _ _ _ _ _ H Ed Hq1) as (x2 & Hq2 & Hk2).
  exists x2. split; [done|]. by eapply same_kind_trans.
Qed.

(** What a successful insert adds lies on the tuple's path. *)
Lemma store_insert_new (s k g nm : list N) (q : path) (root root' x' : node) :
  store_insert s k g nm root = Some root' ->
  lookup_path q root' = Some x' ->
  is_Some (lookup_path q root) \/ q `prefix_of` tuple_path s k g nm.
Proof.
  unfold store_insert, open_w. intros H Hq.
  destruct (makedirs _ root) as [root1|] eqn:Em; [|done].
  destruct (path_isdir _ root1) eqn:Ed; [done|].
  destruct (set_entry_file_new _ _ _ _ _ _ _ H Hq) as [[x1 Hq1] | ->].
  - destruct (makedirs_new _ _ _ _ _ Em Hq1) as [Hs | Hp]; [by left|].
    right. rewrite tuple_path_registry. by apply prefix_app_r.
  - right. by rewrite tuple_path_registry.
Qed.

Lemma tuple_path_inj (s k g nm s' k' g' nm' : list N) :
  tuple_path s k g nm = tuple_path s' k' g' nm' ->
  (s, k, g, nm) = (s', k', g', nm').
Proof.
  unfold tuple_path. intros H. apply app_inv_head in H.
  injection H as -> -> -> H. apply app_inv_tail in H. by subst.
Qed.

Lemma tuple_path_length (s k g nm : list N) :
  length (tuple_path s k g nm) = 7%nat.
Proof. reflexivity. Qed.

(** The effect of one decision on the file tree: none, or the insert of
    the code's own tuple, which was absent. *)
Lemma process_effect (c : str) (ov : bool) (st : state) (r : bool)
  (st' : state) :
  process_barcode_locally c ov st = (r, st') ->
  fs st' = fs st
  \/ (r = true /\ is_master_key c = false
      /\ length c = 20%nat /\ isdigit c = true
      /\ tuple_exists (site_id_of c) (special_key_of c) (registry_id_of c)
           (numerator_of c) (fs st) = false
      /\ store_insert (site_id_of c) (special_key_of c) (registry_id_of c)
           (numerator_of c) (fs st) = Some (fs st')).
Proof.
  intros Hrun.
  destruct (negb (Nat.eqb (length c) 20) || negb (isdigit c)) eqn:Ef.
  { rewrite (process_malformed _ _ _ Ef) in Hrun. inversion Hrun; by left. }
  apply orb_false_elim in Ef as [Hl Hd].
  apply negb_false_iff, Nat.eqb_eq in Hl. apply negb_false_iff in Hd.
  destruct (is_master_key c) eqn:Em.
  { rewrite (process_master _ _ _ Hl Hd Em) in Hrun. cbn zeta in Hrun.
    destruct (site_exists _ (fs st)); inversion Hrun; by left. }
  destruct ov.
  - rewrite (process_override _ _ Hl Hd Em) in Hrun. cbn zeta in Hrun.
    destruct (tuple_exists _ _ _ _ (fs st)) eqn:Et.
    { inversion Hrun; by left. }
    rewrite create_barcode_file_absent in Hrun by exact Et.
    cbn [fs VALID_SPECIAL_KEYS output printed] in Hrun.
    destruct (store_insert _ _ _ _ (fs st)) eqn:Ei; inversion Hrun; subst;
      [right; done | by left].
  - rewrite (process_normal _ _ Hl Hd Em) in Hrun. cbn zeta in Hrun.
    destruct (site_exists _ (fs st)); cbn [negb] in Hrun;
      [|inversion Hrun; by left].
    destruct (bool_decide _); cbn [negb] in Hrun; [|inversion Hrun; by left].
    destruct (tuple_exists _ _ _ _ (fs st)) eqn:Et;
      [inversion Hrun; by left|].
    rewrite create_barcode_file_absent in Hrun by exact Et.
    cbn [fs VALID_SPECIAL_KEYS output printed] in Hrun.
    destruct (store_insert _ _ _ _ (fs st)) eqn:Ei; inversion Hrun; subst;
      [right; done | by left].
Qed.

(** ** Further properties of the validation engine *)

(** X1. No decision un-registers anything: a registered tuple stays
    registered and a site directory stays a directory, whatever the code
    and the button state. *)
Theorem registrations_persist (c : str) (ov : bool) (st : state) (r : bool)
  (st' : state) (s k g n : list N) :
  process_barcode_locally c ov st = (r, st') ->
  (tuple_exists s k g n (fs st) = true -> tuple_exists s k g n (fs st') = true)
  /\ (site_exists s (fs st) = true -> site_exists s (fs st') = true).
Proof.
  intros Hrun.
  destruct (process_effect _ _ _ _ _ Hrun) as [-> | (_ & _ & _ & _ & _ & Hi)];
    [done|].
  unfold tuple_exists, site_exists, path_exists, path_isdir. split.
  - destruct (lookup_path _ (fs st)) as [x|] eqn:E; [|done]. intros _.
    by destruct (store_insert_keeps _ _ _ _ _ _ _ _ Hi E) as (x' & -> & _).
  - destruct (lookup_path _ (fs st)) as [[d|m]|] eqn:E; try done. intros _.
    destruct (store_insert_keeps _ _ _ _ _ _ _ _ Hi E) as (x' & -> & Hk).
    by destruct x'.
Qed.

Lemma registrations_persist_witness :
  tuple_exists (lit "001") (lit "12345") (lit "01") (lit "0000000001")
    (fs (snd (process_barcode_locally (lit "12345000000000201001") true
                registered_state))) = true.
Proof.
  refine (proj1 (registrations_persist _ true registered_state _ _ _ _ _ _
                   (surjective_pairing _)) _).
  vm_compute; reflexivity.
Defined.

(** X2. A decision changes the registration of no tuple but the one its
    own code stands for. *)
Theorem decision_touches_own_tuple_only (c : str) (ov : bool) (st : state)
  (r : bool) (st' : state) (s k g n : list N) :
  process_barcode_locally c ov st = (r, st') ->
  (s, k, g, n) ≠ tuple_of c ->
  tuple_exists s k g n (fs st') = tuple_exists s k g n (fs st).
Proof.
  intros Hrun Hne.
  destruct (process_effect _ _ _ _ _ Hrun) as [-> | (_ & _ & _ & _ & _ & Hi)];
    [done|].
  unfold tuple_exists, path_exists.
  destruct (lookup_path (tuple_path s k g n) (fs st)) as [x|] eqn:E.
  - by destruct (store_insert_keeps _ _ _ _ _ _ _ _ Hi E) as (x' & -> & _).
  - destruct (lookup_path (tuple_path s k g n) (fs st')) as [x'|] eqn:E';
      [|done].
    destruct (store_insert_new _ _ _ _ _ _ _ _ Hi E') as [[y Hy] | Hp];
      [congruence|].
    exfalso. apply Hne. apply tuple_path_inj.
    apply prefix_length_eq; [done|]. by rewrite !tuple_path_length.
Qed.

Lemma decision_touches_own_tuple_only_witness :
  tuple_exists (lit "001") (lit "12345") (lit "01") (lit "0000000002")
    (fs (snd (process_barcode_locally code_001 true fresh_state))) = false.
Proof.
  rewrite (decision_touches_own_tuple_only code_001 true fresh_state _ _
             (lit "001") (lit "12345") (lit "01") (lit "0000000002")
             (surjective_pairing _)).
  - vm_compute; reflexivity.
  - vm_compute. discriminate.
Defined.

(** X3. The key list only grows: a decision leaves it as it is or appends
    the code's own special key, and it appends only with the button
    pressed and a key that is not yet in the list; a list without
    duplicates stays without duplicates. *)
Theorem key_list_grows_only (c : str) (ov : bool) (st : state) (r : bool)
  (st' : state) :
  process_barcode_locally c ov st = (r, st') ->
  (VALID_SPECIAL_KEYS st' = VALID_SPECIAL_KEYS st
   \/ (ov = true /\ (special_key_of c ∉ VALID_SPECIAL_KEYS st)
       /\ VALID_SPECIAL_KEYS st'
          = (VALID_SPECIAL_KEYS st ++ [special_key_of c])))
  /\ (NoDup (VALID_SPECIAL_KEYS st) -> NoDup (VALID_SPECIAL_KEYS st')).
Proof.
  intros Hrun.
  assert (VALID_SPECIAL_KEYS st' = VALID_SPECIAL_KEYS st
          \/ (ov = true /\ (special_key_of c ∉ VALID_SPECIAL_KEYS st)
              /\ VALID_SPECIAL_KEYS st'
                 = (VALID_SPECIAL_KEYS st ++ [special_key_of c]))) as H.
  { destruct (negb (Nat.eqb (length c) 20) || negb (isdigit c)) eqn:Ef.
    { rewrite (process_malformed _ _ _ Ef) in Hrun. inversion Hrun; by left. }
    apply orb_false_elim in Ef as [Hl Hd].
    apply negb_false_iff, Nat.eqb_eq in Hl. apply negb_false_iff in Hd.
    destruct (is_master_key c) eqn:Em.
    { rewrite (process_master _ _ _ Hl Hd Em) in Hrun. cbn zeta in Hrun.
      destruct (site_exists _ (fs st)); inversion Hrun; by left. }
    destruct ov.
    - rewrite (process_override _ _ Hl Hd Em) in Hrun. cbn zeta in Hrun.
      destruct (tuple_exists _ _ _ _ (fs st)) eqn:Et.
      { inversion Hrun; by left. }
      rewrite create_barcode_file_absent in Hrun by exact Et.
      cbn [fs VALID_SPECIAL_KEYS output printed] in Hrun.
      case_bool_decide as Hk;
        destruct (store_insert _ _ _ _ (fs st)); inversion Hrun; subst;
        cbn [VALID_SPECIAL_KEYS]; first [by left | by right].
    - destruct (mutation_frame _ _ _ _ _ Hrun) as (_ & H & _). left. by apply H. }
  split; [exact H|]. intros Hnd.
  destruct H as [-> | (_ & Hk & ->)]; [done|].
  apply NoDup_app. split; [done|]. split; [|apply NoDup_singleton].
  intros x Hx Hx'. apply list_elem_of_singleton in Hx'. by subst.
Qed.

Lemma key_list_grows_only_witness :
  VALID_SPECIAL_KEYS (snd (process_barcode_locally code_001 true fresh_state))
  = [lit ""; lit "12345"]
  /\ NoDup (VALID_SPECIAL_KEYS
              (snd (process_barcode_locally code_001 true fresh_state))).
Proof.
  destruct (key_list_grows_only code_001 true fresh_state _ _
              (surjective_pairing _)) as [_ H].
  split; [vm_compute; reflexivity|].
  apply H. apply NoDup_singleton.
Defined.

(** X4. With the key list as the module sets it, [[""]], no code is
    admitted with the button not pressed unless it is a Master Key: the
    special key of a 20-character code has five characters and is never the
    empty string. *)
Theorem seed_key_admits_nothing (c : str) (st : state) (r : bool)
  (st' : state) :
  VALID_SPECIAL_KEYS st = INITIAL_SPECIAL_KEYS ->
  is_master_key c = false ->
  process_barcode_locally c false st = (r, st') ->
  r = false /\ fs st' = fs st /\ VALID_SPECIAL_KEYS st' = INITIAL_SPECIAL_KEYS.
Proof.
  intros Hk Hm Hrun.
  destruct (negb (Nat.eqb (length c) 20) || negb (isdigit c)) eqn:Ef.
  { rewrite (process_malformed _ _ _ Ef) in Hrun. by inversion Hrun; subst. }
  apply orb_false_elim in Ef as [Hl Hd].
  apply negb_false_iff, Nat.eqb_eq in Hl. apply negb_false_iff in Hd.
  rewrite (process_normal _ _ Hl Hd Hm) in Hrun. cbn zeta in Hrun.
  destruct (site_exists _ (fs st)); cbn [negb] in Hrun;
    [|by inversion Hrun; subst].
  rewrite bool_decide_eq_false_2 in Hrun.
  { cbn [negb] in Hrun. by inversion Hrun; subst. }
  rewrite Hk. unfold INITIAL_SPECIAL_KEYS. intros Hin.
  apply list_elem_of_singleton in Hin.
  apply (f_equal length) in Hin. unfold special_key_of, slice in Hin.
  rewrite length_take, length_drop, Hl in Hin. discriminate Hin.
Qed.

Lemma seed_key_admits_nothing_witness :
  fst (process_barcode_locally code_001 false
         (State (fs registered_state) INITIAL_SPECIAL_KEYS [])) = false.
Proof.
  refine (proj1 (seed_key_admits_nothing code_001
                   (State (fs registered_state) INITIAL_SPECIAL_KEYS [])
                   _ _ eq_refl _ (surjective_pairing _))).
  vm_compute; reflexivity.
Defined.

(** X5. An admission with the button pressed opens the registry for the
    scans that follow: once a code whose tuple was absent has been admitted
    with the button pressed, every other code of the same site, special key
    and registry whose tuple is not yet registered is admitted with the
    button not pressed, and is registered by that. *)
Theorem override_opens_registry (c c2 : str) (st st1 : state) (r2 : bool)
  (st2 : state) :
  well_formed c = true -> is_master_key c = false ->
  tuple_exists (site_id_of c) (special_key_of c) (registry_id_of c)
    (numerator_of c) (fs st) = false ->
  process_barcode_locally c true st = (true, st1) ->
  well_formed c2 = true -> is_master_key c2 = false ->
  site_id_of c2 = site_id_of c ->
  special_key_of c2 = special_key_of c ->
  registry_id_of c2 = registry_id_of c ->
  tuple_exists (site_id_of c2) (special_key_of c2) (registry_id_of c2)
    (numerator_of c2) (fs st1) = false ->
  process_barcode_locally c2 false st1 = (r2, st2) ->
  r2 = true
  /\ tuple_exists (site_id_of c2) (special_key_of c2) (registry_id_of c2)
       (numerator_of c2) (fs st2) = true.
Proof.
  intros Hwf Hm Ht Hrun1 Hwf2 Hm2 Hs Hk Hg Ht2 Hrun2.
  destruct (well_formed_accepted _ Hwf) as [Hl Hd].
  destruct (well_formed_accepted _ Hwf2) as [Hl2 Hd2].
  rewrite (process_override _ _ Hl Hd Hm) in Hrun1. cbn zeta in Hrun1.
  rewrite Ht in Hrun1.
  rewrite create_barcode_file_absent in Hrun1 by exact Ht.
  cbn [fs VALID_SPECIAL_KEYS output printed] in Hrun1.
  pose proof (store_insert_absent _ _ _ _ _ Ht) as Hins.
  destruct (store_insert _ _ _ _ (fs st)) as [root'|] eqn:Ei; [|done].
  destruct Hins as [Hex _]. injection Hrun1 as <-.
  assert (special_key_of c ∈ VALID_SPECIAL_KEYS
            (State root'
               (if bool_decide (special_key_of c ∈ VALID_SPECIAL_KEYS st)
                then VALID_SPECIAL_KEYS st
                else VALID_SPECIAL_KEYS st ++ [special_key_of c])
               ((output st ++
                 [Fields (special_key_of c) (site_id_of c) (registry_id_of c)
                    (numerator_of c); ManualOverride]) ++ [FileCreated])))
    as Hkey.
  { cbn [VALID_SPECIAL_KEYS]. case_bool_decide; [done|].
    apply elem_of_app. right. apply list_elem_of_here. }
  rewrite (process_normal _ _ Hl2 Hd2 Hm2) in Hrun2. cbn zeta in Hrun2.
  rewrite Hs, Hk, Hg in Hrun2, Ht2.
  cbn [fs] in Hrun2, Ht2.
  rewrite (tuple_exists_site_exists _ _ _ _ _ Hex) in Hrun2.
  rewrite (bool_decide_eq_true_2 _ Hkey), Ht2 in Hrun2. cbn [negb] in Hrun2.
  rewrite create_barcode_file_absent in Hrun2 by exact Ht2.
  cbn [fs VALID_SPECIAL_KEYS output printed] in Hrun2.
  pose proof (store_insert_absent _ _ _ _ _ Ht2) as Hins2.
  assert (path_isdir (registry_path (site_id_of c) (special_key_of c)
                        (registry_id_of c)) root' = true) as Hreg.
  { unfold tuple_exists, path_exists in Hex. rewrite tuple_path_registry in Hex.
    destruct (lookup_path _ root') as [x|] eqn:E; [|done].
    by eapply lookup_path_parent_isdir; [|exact E]. }
  rewrite Hs, Hk, Hg.
  destruct (store_insert _ _ _ (numerator_of c2) root') as [root2|] eqn:Ei2.
  - destruct Hins2 as [Hex2 _]. by injection Hrun2 as <- <-.
  - by rewrite (makedirs_existing _ _ Hreg) in Hins2.
Qed.

Lemma override_opens_registry_witness :
  fst (process_barcode_locally (lit "12345000000000201001") false
         (snd (process_barcode_locally code_001 true fresh_state))) = true.
Proof.
  assert (Hw : well_formed code_001 = true) by (vm_compute; reflexivity).
  assert (Hm : is_master_key code_001 = false) by (vm_compute; reflexivity).
  destruct (process_barcode_locally code_001 true fresh_state)
    as [r1 st1] eqn:E1.
  assert (r1 = true) as -> by (by vm_compute in E1; injection E1 as <-).
  cbn [snd].
  refine (proj1 (override_opens_registry code_001
                   (lit "12345000000000201001") fresh_state st1 _ _
                   Hw Hm _ E1 _ _ _ _ _ _ (surjective_pairing _)));
    try (vm_compute; reflexivity).
  vm_compute in E1. injection E1 as <-. vm_compute; reflexivity.
Defined.

(** ** The wipe and the decisions that follow it *)

Lemma site_name_not_kept (s : list N) :
  length s = 3%nat -> s ∉ FILES_TO_KEEP.
Proof.
  intros Hl Hin. unfold FILES_TO_KEEP in Hin.
  repeat (apply elem_of_cons in Hin as [-> | Hin]; [discriminate Hl|]).
  by apply elem_of_nil in Hin.
Qed.

(** X6. After a wipe in which no deletion fails, nothing is registered
    under any three-character site name, and every decision that does not
    have the button pressed on an ordinary code is a denial that changes
    nothing: ordinary codes are denied for want of a site directory, and so
    is every Master Key, with or without the button. The key list is not
    cleared by the wipe. *)
Theorem wipe_closes_every_site (delete_fault : list N -> node -> option node)
  (st st' : state) (c : str) (ov : bool) (r : bool) (st'' : state) :
  (forall name nd, delete_fault name nd = None) ->
  delete_database delete_fault st = (tt, st') ->
  process_barcode_locally c ov st' = (r, st'') ->
  VALID_SPECIAL_KEYS st' = VALID_SPECIAL_KEYS st
  /\ (forall s k g n, length s = 3%nat -> tuple_exists s k g n (fs st') = false)
  /\ (is_master_key c = true \/ ov = false -> r = false /\ fs st'' = fs st').
Proof.
  intros Hnf Hwipe Hrun. unfold delete_database in Hwipe.
  destruct (wipe_except_spec FILES_TO_KEEP delete_fault st)
    as (fs' & sound & Heq & Hl).
  rewrite Hwipe in Heq. apply (f_equal snd) in Heq. cbn [snd] in Heq.
  subst st'. cbn [fs VALID_SPECIAL_KEYS] in *.
  assert (forall s, length s = 3%nat ->
                    lookup_path (site_path s) fs' = None) as Hsite.
  { intros s Hs. unfold site_path. rewrite Hl. unfold wiped.
    destruct (lookup_path (BARCODE_DIR ++ [s]) (fs st)); [|done].
    rewrite bool_decide_eq_false_2 by (by apply site_name_not_kept).
    apply Hnf. }
  split; [done|]. split.
  - intros s k g n Hs. unfold tuple_exists, path_exists.
    rewrite tuple_path_site, lookup_path_app, (Hsite s Hs). done.
  - intros Hcase.
    destruct (negb (Nat.eqb (length c) 20) || negb (isdigit c)) eqn:Ef.
    { rewrite (process_malformed _ _ _ Ef) in Hrun. by inversion Hrun; subst. }
    apply orb_false_elim in Ef as [Hlen Hd].
    apply negb_false_iff, Nat.eqb_eq in Hlen. apply negb_false_iff in Hd.
    destruct (is_master_key c) eqn:Em.
    + rewrite (process_master _ _ _ Hlen Hd Em) in Hrun. cbn zeta in Hrun.
      cbn [fs] in Hrun. unfold site_exists, path_isdir in Hrun.
      rewrite Hsite in Hrun; [by inversion Hrun; subst|].
      unfold slice_from_to_end. rewrite length_take, length_drop, Hlen. done.
    + destruct Hcase as [Hcase | ->]; [done|].
      rewrite (process_normal _ _ Hlen Hd Em) in Hrun. cbn zeta in Hrun.
      cbn [fs] in Hrun. unfold site_exists, path_isdir in Hrun.
      rewrite Hsite in Hrun; [by inversion Hrun; subst|].
      unfold site_id_of, slice. rewrite length_take, length_drop, Hlen. done.
Qed.

Lemma wipe_closes_every_site_witness :
  tuple_exists (lit "001") (lit "12345") (lit "01") (lit "0000000001")
    (fs installed_state) = true
  /\ fst (process_barcode_locally master_001 false
            (snd (delete_database no_fault installed_state))) = false.
Proof.
  split; [vm_compute; reflexivity|].
  destruct (delete_database no_fault installed_state) as [[] st'] eqn:E.
  cbn [snd].
  refine (proj1 (proj2 (proj2 (wipe_closes_every_site no_fault installed_state
                                 st' master_001 false _ _ (fun _ _ => eq_refl)
                                 E (surjective_pairing _))) _)).
  left. vm_compute; reflexivity.
Defined.

(** ** Master Keys and the remembered code *)

Lemma handle_scans_app (send_data : list N -> bool -> M unit)
  (a b : list (list N * bool)) (last : option (list N)) (st : state) :
  handle_scans send_data (a ++ b) last st =
  handle_scans send_data b (fst (handle_scans send_data a last st))
    (snd (handle_scans send_data a last st)).
Proof.
  revert last st. induction a as [|[c p] a IH]; intros last st; simpl; [done|].
  unfold bind. destruct (handle_scan send_data c p last st) as [last1 st1].
  apply IH.
Qed.

Lemma handle_scan_master_memory (send_data : list N -> bool -> M unit)
  (c : str) (p : bool) (last : option (list N)) (st : state) :
  is_master_key c = true ->
  fst (handle_scan send_data c p last st) = last.
Proof.
  intros Hm. unfold handle_scan. rewrite Hm. simpl.
  unfold bind, print, ret.
  by destruct (send_data c p _).
Qed.

(** X7. Master Key scans never change the remembered code, whatever the
    button state: a code scanned again after any number of Master Key scans
    is still suppressed as a duplicate, without a call of [send_data]. *)
Theorem master_scans_keep_memory (send_data : list N -> bool -> M unit)
  (masters : list (list N * bool)) (c : str) (last : option (list N))
  (st : state) :
  Forall (fun scan => is_master_key (fst scan) = true) masters ->
  is_master_key c = false ->
  fst (handle_scans send_data masters last st) = last
  /\ handle_scans send_data (masters ++ [(c, false)]) (Some c) st =
     (Some c,
      snd (play_sound (lit "beep")
             (printed [DuplicateIgnored c]
                (snd (handle_scans send_data masters (Some c) st))))).
Proof.
  intros Hall Hm.
  assert (forall last st, fst (handle_scans send_data masters last st) = last)
    as Hkeep.
  { clear last st. induction Hall as [|[m p] ms Hmk _ IH]; intros last st;
      simpl; [done|].
    unfold bind.
    pose proof (handle_scan_master_memory send_data m p last st Hmk) as H1.
    destruct (handle_scan send_data m p last st) as [last1 st1].
    simpl in H1. subst last1. apply IH. }
  split; [apply Hkeep|].
  rewrite handle_scans_app, Hkeep. simpl. unfold bind.
  rewrite (handle_scan_duplicate send_data c _ Hm). done.
Qed.

Lemma master_scans_keep_memory_witness :
  fst (handle_scans local_dispatch
         [(code_001, false); (master_001, false); (code_001, false)]
         initial_last_barcode fresh_state) = Some code_001
  /\ output (snd (handle_scans local_dispatch
                    [(master_001, true); (code_001, false)]
                    (Some code_001) fresh_state))
     = [BypassDuplicateCheck;
        Fields (lit "12345") (lit "678") (lit "45") (lit "6780001123");
        MasterUnknownSite (lit "001"); DuplicateIgnored code_001].
Proof.
  assert (Hm : is_master_key code_001 = false) by (vm_compute; reflexivity).
  assert (Hall : Forall (fun scan : list N * bool =>
                           is_master_key (fst scan) = true)
                   [(master_001, true)]).
  { apply Forall_cons. split; [vm_compute; reflexivity | apply Forall_nil_2]. }
  destruct (master_scans_keep_memory local_dispatch _ code_001
              (Some code_001) fresh_state Hall Hm) as [_ H].
  split; [vm_compute; reflexivity|].
  simpl app in H. rewrite H. vm_compute; reflexivity.
Defined.

(** ** The UTF-8 codec *)

Ltac nlia := zify; Z.to_euclidean_division_equations; lia.

Ltac bool_cmp :=
  repeat match goal with
  | |- context [?a <? ?b] =>
      first [ rewrite (proj2 (N.ltb_lt a b)) by nlia
            | rewrite (proj2 (N.ltb_ge a b)) by nlia ]
  | |- context [?a <=? ?b] =>
      first [ rewrite (proj2 (N.leb_le a b)) by nlia
            | rewrite (proj2 (N.leb_gt a b)) by nlia ]
  | |- context [?a =? ?b] =>
      first [ rewrite (proj2 (N.eqb_eq a b)) by nlia
            | rewrite (proj2 (N.eqb_neq a b)) by nlia ]
  end.

Lemma byte_of_N_to_N (n : N) : n < 256 -> Byte.to_N (byte_of_N n) = n.
Proof.
  intros Hn. unfold byte_of_N.
  destruct (Byte.of_N n) as [b|] eqn:E; simpl.
  - by apply Byte.to_of_N.
  - apply Byte.of_N_None_iff in E. lia.
Qed.

Lemma bytes_of_N_to_N (ns : list N) :
  Forall (fun n => n < 256) ns -> Byte.to_N <$> (byte_of_N <$> ns) = ns.
Proof.
  induction 1 as [|n ns Hn _ IH]; simpl; [done|].
  rewrite byte_of_N_to_N by done. f_equal. exact IH.
Qed.

Lemma utf8_decode_cons (b0 : N) (r0 : list N) :
  utf8_decode (b0 :: r0) =
  if b0 <? 128 then cons b0 <$> utf8_decode r0
  else if b0 <? 194 then None
  else if b0 <? 224 then
    match r0 with
    | b1 :: r1 =>
        if is_continuation b1
        then cons ((b0 - 192) * 64 + (b1 - 128)) <$> utf8_decode r1
        else None
    | _ => None
    end
  else if b0 <? 240 then
    match r0 with
    | b1 :: b2 :: r2 =>
        if in_range (if b0 =? 224 then 160 else 128)
             (if b0 =? 237 then 159 else 191) b1
           && is_continuation b2
        then cons ((b0 - 224) * 4096 + (b1 - 128) * 64 + (b2 - 128))
               <$> utf8_decode r2
        else None
    | _ => None
    end
  else if b0 <? 245 then
    match r0 with
    | b1 :: b2 :: b3 :: r3 =>
        if in_range (if b0 =? 240 then 144 else 128)
             (if b0 =? 244 then 143 else 191) b1
           && is_continuation b2 && is_continuation b3
        then cons ((b0 - 240) * 262144 + (b1 - 128) * 4096
                   + (b2 - 128) * 64 + (b3 - 128))
               <$> utf8_decode r3
        else None
    | _ => None
    end
  else None.
Proof. reflexivity. Qed.

Lemma utf8_encode_char_bytes (c : N) (bs : list N) :
  utf8_encode_char c = Some bs -> Forall (fun b => b < 256) bs.
Proof.
  unfold utf8_encode_char, in_range.
  destruct (N.ltb_spec c 128); [intros [= <-]; repeat constructor; lia|].
  destruct (N.ltb_spec c 2048); [intros [= <-]; repeat constructor; nlia|].
  destruct (N.ltb_spec c 65536).
  { destruct ((55296 <=? c) && (c <=? 57343)); [done|].
    intros [= <-]; repeat constructor; nlia. }
  destruct (N.ltb_spec c 1114112); [|done].
  intros [= <-]; repeat constructor; nlia.
Qed.

(** Decoding the bytes of one code point gives the code point back. *)
Lemma utf8_decode_encode_char (c : N) (bs rest : list N) :
  utf8_encode_char c = Some bs ->
  utf8_decode (bs ++ rest) = cons c <$> utf8_decode rest.
Proof.
  unfold utf8_encode_char, in_range.
  destruct (N.ltb_spec c 128) as [H1|H1].
  { intros [= <-]. simpl app. rewrite utf8_decode_cons. by bool_cmp. }
  destruct (N.ltb_spec c 2048) as [H2|H2].
  { intros [= <-]. simpl app. rewrite utf8_decode_cons.
    unfold is_continuation, in_range. bool_cmp. cbn [andb].
    f_equal. f_equal. nlia. }
  destruct (N.ltb_spec c 65536) as [H3|H3].
  { destruct (N.leb_spec 55296 c) as [H4|H4];
      [destruct (N.leb_spec c 57343) as [H5|H5]; [done|]|]; cbn [andb];
      intros [= <-]; simpl app; rewrite utf8_decode_cons;
      unfold is_continuation, in_range.
    - bool_cmp. cbn [andb]. f_equal. f_equal. nlia.
    - destruct (N.lt_ge_cases c 4096);
        [|destruct (N.lt_ge_cases c 53248)];
        bool_cmp; cbn [andb]; f_equal; f_equal; nlia. }
  destruct (N.ltb_spec c 1114112) as [H4|H4]; [|done].
  intros [= <-]. simpl app. rewrite utf8_decode_cons.
  unfold is_continuation, in_range.
  destruct (N.lt_ge_cases c 262144);
    [|destruct (N.lt_ge_cases c 1048576)];
    bool_cmp; cbn [andb]; f_equal; f_equal; nlia.
Qed.

Lemma utf8_encode_bytes (s : str) (bs : list N) :
  utf8_encode s = Some bs -> Forall (fun b => b < 256) bs.
Proof.
  revert bs. induction s as [|c s IH]; intros bs; simpl.
  - intros [= <-]. constructor.
  - destruct (utf8_encode_char c) as [cb|] eqn:Ec; [|done].
    destruct (utf8_encode s) as [rest|]; [|done]. intros [= <-].
    apply Forall_app. split; [by eapply utf8_encode_char_bytes | by apply IH].
Qed.

Lemma utf8_decode_encode (s : str) (bs : list N) :
  utf8_encode s = Some bs -> utf8_decode bs = Some s.
Proof.
  revert bs. induction s as [|c s IH]; intros bs; simpl.
  - by intros [= <-].
  - destruct (utf8_encode_char c) as [cb|] eqn:Ec; [|done].
    destruct (utf8_encode s) as [rest|]; [|done]. intros [= <-].
    rewrite (utf8_decode_encode_char _ _ _ Ec), (IH rest eq_refl). done.
Qed.

Lemma decode_encode_utf8 (s : str) (bs : list byte) :
  encode_utf8 s = Some bs -> decode_utf8 bs = Some s.
Proof.
  unfold encode_utf8, decode_utf8.
  destruct (utf8_encode s) as [ns|] eqn:E; [|done]. intros [= <-].
  rewrite bytes_of_N_to_N by (by eapply utf8_encode_bytes).
  by apply utf8_decode_encode.
Qed.

(** X8. [str.encode("utf-8")] followed by [bytes.decode("utf-8")] gives the
    string back; the encoding raises exactly when the string holds a
    surrogate (or a number that is no code point), and an ASCII string is
    encoded byte for character. *)
Theorem utf8_round_trip (s : str) :
  match encode_utf8 s with
  | Some bs =>
      decode_utf8 bs = Some s
      /\ Forall (fun c => c < 1114112 /\ ~ (55296 <= c <= 57343)) s
      /\ (Forall (fun c => c < 128) s -> Byte.to_N <$> bs = s)
  | None => Exists (fun c => 1114112 <= c \/ 55296 <= c <= 57343) s
  end.
Proof.
  destruct (encode_utf8 s) as [bs|] eqn:E.
  - split; [by apply decode_encode_utf8|].
    unfold encode_utf8 in E.
    destruct (utf8_encode s) as [ns|] eqn:En; [|done]. injection E as <-.
    rewrite bytes_of_N_to_N by (by eapply utf8_encode_bytes).
    revert ns En. induction s as [|c s IH]; intros ns En; simpl in En.
    { injection En as <-. split; [constructor | done]. }
    destruct (utf8_encode_char c) as [cb|] eqn:Ec; [|done].
    destruct (utf8_encode s) as [rest|]; [|done]. injection En as <-.
    destruct (IH rest eq_refl) as [Hall Hascii]. split.
    + constructor; [|done]. unfold utf8_encode_char, in_range in Ec.
      destruct (N.ltb_spec c 128); [lia|].
      destruct (N.ltb_spec c 2048); [lia|].
      destruct (N.ltb_spec c 65536).
      * destruct (N.leb_spec 55296 c); [|lia].
        destruct (N.leb_spec c 57343); [done | lia].
      * destruct (N.ltb_spec c 1114112); [lia | done].
    + intros Hs. apply Forall_cons in Hs as [Hc Hs].
      unfold utf8_encode_char in Ec.
      rewrite (proj2 (N.ltb_lt c 128) Hc) in Ec. injection Ec as <-.
      simpl. by rewrite Hascii.
  - unfold encode_utf8 in E.
    destruct (utf8_encode s) as [ns|] eqn:En; [done|]. clear E.
    induction s as [|c s IH]; simpl in En; [done|].
    destruct (utf8_encode_char c) as [cb|] eqn:Ec.
    + apply Exists_cons_tl. apply IH. by destruct (utf8_encode s).
    + apply Exists_cons_hd. unfold utf8_encode_char, in_range in Ec.
      destruct (N.ltb_spec c 128); [done|].
      destruct (N.ltb_spec c 2048); [done|].
      destruct (N.ltb_spec c 65536).
      * destruct (N.leb_spec 55296 c); [|done].
        destruct (N.leb_spec c 57343); [lia | done].
      * destruct (N.ltb_spec c 1114112); [done | lia].
Qed.

Lemma utf8_round_trip_witness :
  encode_utf8 (lit "open") = Some (request_bytes "open")
  /\ decode_utf8 (request_bytes "open") = Some (lit "open").
Proof.
  pose proof (utf8_round_trip (lit "open")) as H.
  assert (E : encode_utf8 (lit "open") = Some (request_bytes "open"))
    by (vm_compute; reflexivity).
  rewrite E in H. split; [exact E | exact (proj1 H)].
Defined.

(** ** The request line, from the client to the handler *)

Lemma ascii_encode (s : str) :
  Forall (fun c => c < 128) s -> encode_utf8 s = Some (byte_of_N <$> s).
Proof.
  intros Hs. unfold encode_utf8.
  assert (utf8_encode s = Some s) as ->; [|done].
  induction Hs as [|c s Hc _ IH]; simpl; [done|].
  unfold utf8_encode_char. rewrite (proj2 (N.ltb_lt c 128) Hc). by rewrite IH.
Qed.

Lemma bytes_strip_id (a z : byte) (mid : list byte) :
  is_ascii_space a = false -> is_ascii_space z = false ->
  bytes_strip (a :: mid ++ [z]) = a :: mid ++ [z].
Proof.
  intros Ha Hz. unfold bytes_strip. simpl lstrip at 2. rewrite Ha.
  change (a :: mid ++ [z]) with ((a :: mid) ++ [z]).
  rewrite rev_unit. simpl lstrip. rewrite Hz.
  simpl rev. rewrite rev_unit, rev_involutive. done.
Qed.

Lemma before_colon_app (d t : list N) :
  colon ∉ d -> before_colon (d ++ colon :: t) = d.
Proof.
  induction d as [|c d IH]; simpl.
  - intros _. first [done | by rewrite bool_decide_eq_true_2].
  - rewrite not_elem_of_cons. intros [Hc Hd].
    rewrite bool_decide_eq_false_2 by congruence. by rewrite IH.
Qed.

Lemma after_colon_app (d t : list N) :
  colon ∉ d -> after_colon (d ++ colon :: t) = Some t.
Proof.
  induction d as [|c d IH]; simpl.
  - intros _. first [done | by rewrite bool_decide_eq_true_2].
  - rewrite not_elem_of_cons. intros [Hc Hd].
    rewrite bool_decide_eq_false_2 by congruence. by apply IH.
Qed.

Lemma decimal_digits_no_colon (data : list N) :
  Forall (fun c => is_decimal_digit c = true) data -> colon ∉ data.
Proof.
  intros Hall Hin. rewrite Forall_forall in Hall.
  specialize (Hall _ Hin). vm_compute in Hall. discriminate Hall.
Qed.

Lemma decimal_digit_bounds (c : N) :
  is_decimal_digit c = true -> 48 <= c <= 57.
Proof.
  unfold is_decimal_digit. intros [H1 H2]%andb_prop.
  apply N.leb_le in H1, H2. lia.
Qed.

Lemma request_line_parsed (data : list N) (button : option bool) :
  Forall (fun c => is_decimal_digit c = true) data ->
  before_colon (request_line data button) = data
  /\ override_flag (request_line data button) = truthy button.
Proof.
  intros Hd. pose proof (decimal_digits_no_colon _ Hd) as Hc.
  unfold request_line, override_flag, second_field.
  rewrite before_colon_app, after_colon_app by done. split; [done|].
  by destruct button as [[]|].
Qed.

Lemma is_ascii_space_byte (c : N) :
  c < 256 -> ~ (9 <= c <= 13) -> c ≠ 32 ->
  is_ascii_space (byte_of_N c) = false.
Proof.
  intros H1 H2 H3. unfold is_ascii_space. rewrite byte_of_N_to_N by done.
  cbn zeta. destruct (N.leb_spec 9 c); destruct (N.leb_spec c 13);
    destruct (N.eqb_spec c 32); simpl; try done; lia.
Qed.

(** The bytes of a request line are not changed by [strip]. *)
Lemma request_line_strip (data : list N) (button : option bool) :
  Forall (fun c => is_decimal_digit c = true) data ->
  bytes_strip (byte_of_N <$> request_line data button)
  = byte_of_N <$> request_line data button.
Proof.
  intros Hd.
  assert (exists a mid, request_line data button = a :: mid ++ [101]
                        /\ 48 <= a <= 58) as (a & mid & -> & Ha).
  { unfold request_line. destruct data as [|c data].
    - exists colon. unfold colon. destruct button as [[]|].
      + exists (lit "Tru"). split; [reflexivity | lia].
      + exists (lit "Fals"). split; [reflexivity | lia].
      + exists (lit "Non"). split; [reflexivity | lia].
    - apply Forall_cons in Hd as [Hc _]. apply decimal_digit_bounds in Hc.
      exists c. destruct button as [[]|].
      + exists (data ++ colon :: lit "Tru"). split; [|lia].
        simpl. f_equal. rewrite <- app_assoc. done.
      + exists (data ++ colon :: lit "Fals"). split; [|lia].
        simpl. f_equal. rewrite <- app_assoc. done.
      + exists (data ++ colon :: lit "Non"). split; [|lia].
        simpl. f_equal. rewrite <- app_assoc. done. }
  rewrite fmap_cons, fmap_app. simpl (byte_of_N <$> [101]).
  apply bytes_strip_id.
  - apply is_ascii_space_byte; lia.
  - vm_compute; reflexivity.
Qed.

Lemma request_line_ascii (data : list N) (button : option bool) :
  Forall (fun c => is_decimal_digit c = true) data ->
  Forall (fun c => c < 128) (request_line data button).
Proof.
  intros Hd. unfold request_line. apply Forall_app. split.
  - eapply Forall_impl; [exact Hd|]. intros c Hc.
    apply decimal_digit_bounds in Hc. lia.
  - destruct button as [[]|]; repeat constructor.
Qed.

(** The handler on the request the client writes for a string of digits. *)
Lemma handle_request_line (data : list N) (button : option bool)
  (server : state) :
  Forall (fun c => is_decimal_digit c = true) data ->
  encode_utf8 (request_line data button)
  = Some (byte_of_N <$> request_line data button)
  /\ handle (Connection (Some (byte_of_N <$> request_line data button)) false)
       server
     = let (ok, server') :=
         process_barcode_locally data (truthy button)
           (printed [NetworkRequest data (truthy button)] server) in
       (Some (if ok then reply_open else reply_close), server').
Proof.
  intros Hd.
  pose proof (ascii_encode _ (request_line_ascii data button Hd)) as He.
  split; [exact He|].
  assert (decode_utf8 (bytes_strip (byte_of_N <$> request_line data button))
          = Some (request_line data button)) as Hdec.
  { rewrite request_line_strip by done. by apply decode_encode_utf8. }
  assert (request_line data button ≠ []) as Hne.
  { unfold request_line. by destruct data. }
  rewrite (handle_message _ _ _ _ Hdec Hne). cbn zeta.
  destruct (request_line_parsed data button Hd) as [-> ->]. done.
Qed.



(** ** [Client.send_data] *)

Lemma lift_play_sound (name : list N) (w : client_state) :
  lift (play_sound name) w =
  (tt, ClientState (client_fs w) (client_keys w)
         (client_log w ++ sound_effects name (client_fs w))).
Proof.
  unfold lift, play_sound, bind, os_path_exists, print, ret, sound_effects.
  cbn [fs VALID_SPECIAL_KEYS output].
  by destruct (path_exists _ (client_fs w)).
Qed.

Lemma open_gate_run (gate : bool) (w : client_state) :
  open_gate gate w =
  (tt, ClientState (client_fs w) (client_keys w)
         (client_log w ++ gate_effects gate)).
Proof.
  unfold open_gate, gate_effects, cbind, note. destruct gate; simpl; [|done].
  by rewrite <- app_assoc.
Qed.

Lemma decode_reply (ok : bool) :
  decode_utf8 (reply_bytes (Some (if ok then reply_open else reply_close)))
  = Some (reply_text ok).
Proof. by destruct ok; vm_compute. Qed.

Lemma reply_text_is_open (ok : bool) :
  bool_decide (reply_text ok = lit "open") = ok
  /\ bool_decide (reply_text false = lit "close") = true.
Proof. by destruct ok; vm_compute. Qed.

Lemma create_output_append (s k g n : list N) (f : node)
  (ks : list (list N)) (o : list event) :
  create_barcode_file s k g n (State f ks o) =
  let (r, st') := create_barcode_file s k g n (State f ks []) in
  (r, State (fs st') (VALID_SPECIAL_KEYS st') (o ++ output st')).
Proof.
  rewrite !create_barcode_file_eq. unfold printed.
  cbn [fs VALID_SPECIAL_KEYS output].
  destruct (makedirs _ f) as [root1|]; [|done].
  by destruct (open_w _ _ root1).
Qed.

(** The engine never reads what was printed before: its decision and its
    effect on the file tree and the key list are the same after any
    output, and its own lines are appended. *)
Lemma process_output_append (c : str) (ov : bool) (f : node)
  (ks : list (list N)) (o : list event) :
  process_barcode_locally c ov (State f ks o) =
  let (r, st') := process_barcode_locally c ov (State f ks []) in
  (r, State (fs st') (VALID_SPECIAL_KEYS st') (o ++ output st')).
Proof.
  destruct (negb (Nat.eqb (length c) 20) || negb (isdigit c)) eqn:Ef.
  { by rewrite !(process_malformed _ _ _ Ef). }
  apply orb_false_elim in Ef as [Hl Hd].
  apply negb_false_iff, Nat.eqb_eq in Hl. apply negb_false_iff in Hd.
  destruct (is_master_key c) eqn:Em.
  { rewrite !(process_master _ _ _ Hl Hd Em). cbn zeta. unfold printed.
    cbn [fs VALID_SPECIAL_KEYS output].
    destruct (site_exists (slice_from_to_end 9 8 c) f);
      cbn [fs VALID_SPECIAL_KEYS output]; by rewrite <- ?app_assoc. }
  destruct ov.
  - rewrite !(process_override _ _ Hl Hd Em). cbn zeta. unfold printed.
    cbn [fs VALID_SPECIAL_KEYS output].
    destruct (tuple_exists (site_id_of c) (special_key_of c)
                (registry_id_of c) (numerator_of c) f); [done|].
    rewrite create_output_append.
    rewrite (create_output_append _ _ _ _ _ _ ([] ++ _)).
    destruct (create_barcode_file _ _ _ _ _) as [r st'].
    cbn [fs VALID_SPECIAL_KEYS output]. by rewrite <- ?app_assoc.
  - rewrite !(process_normal _ _ Hl Hd Em). cbn zeta. unfold printed.
    cbn [fs VALID_SPECIAL_KEYS output].
    destruct (site_exists (site_id_of c) f);
      cbn [negb fs VALID_SPECIAL_KEYS output];
      [|by rewrite <- ?app_assoc].
    destruct (bool_decide (special_key_of c ∈ ks));
      cbn [negb fs VALID_SPECIAL_KEYS output];
      [|by rewrite <- ?app_assoc].
    destruct (tuple_exists (site_id_of c) (special_key_of c)
                (registry_id_of c) (numerator_of c) f);
      cbn [negb fs VALID_SPECIAL_KEYS output]; [by rewrite <- ?app_assoc|].
    rewrite create_output_append.
    rewrite (create_output_append _ _ _ _ _ _ ([] ++ _)).
    destruct (create_barcode_file _ _ _ _ _) as [r st'].
    cbn [fs VALID_SPECIAL_KEYS output]. by rewrite <- ?app_assoc.
Qed.

(** The dispatch of a string of digits to a reachable server. *)
Lemma send_data_online (gate : bool) (data : list N) (button : option bool)
  (server : state) (w : client_state) :
  Forall (fun c => is_decimal_digit c = true) data ->
  send_data gate true true (served_by server) data button w =
  let ok :=
    fst (process_barcode_locally data (truthy button)
           (printed [NetworkRequest data (truthy button)] server)) in
  (Returned,
   ClientState (client_fs w) (client_keys w)
     (client_log w ++
      Dispatch ServerOnline :: Dispatch (ServerResponded (reply_text ok)) ::
      (if ok then gate_effects gate ++ sound_effects (lit "sound") (client_fs w)
       else sound_effects (lit "beep") (client_fs w)))).
Proof.
  intros Hd. destruct (handle_request_line data button server Hd) as [He Hh].
  unfold send_data, served_by. cbn [negb]. rewrite He, Hh.
  destruct (process_barcode_locally data _ _) as [ok server']. cbn [fst].
  rewrite decode_reply. unfold cbind, note, cret.
  cbn [client_fs client_keys client_log].
  destruct ok.
  - rewrite (proj1 (reply_text_is_open true)).
    rewrite open_gate_run, lift_play_sound.
    cbn [client_fs client_keys client_log]. by rewrite <- ?app_assoc.
  - rewrite (proj1 (reply_text_is_open false)),
      (proj2 (reply_text_is_open false)).
    rewrite lift_play_sound.
    cbn [client_fs client_keys client_log]. by rewrite <- ?app_assoc.
Qed.

(** The dispatch when the server does not answer the ping. *)
Lemma send_data_offline (gate connects : bool)
  (exchange : list byte -> option (list byte)) (data : list N)
  (button : option bool) (w : client_state) :
  send_data gate false connects exchange data button w =
  let (ok, st') :=
    process_barcode_locally data (truthy button)
      (State (client_fs w) (client_keys w) []) in
  (Returned,
   ClientState (fs st') (VALID_SPECIAL_KEYS st')
     (client_log w ++
      Dispatch ServerUnreachable :: (Shared <$> output st') ++
      (if ok then gate_effects gate ++ sound_effects (lit "sound") (fs st')
       else sound_effects (lit "beep") (fs st')))).
Proof.
  unfold send_data. cbn [negb]. unfold cbind, note, cret.
  cbn [client_fs client_keys client_log].
  change (lift (process_barcode_locally data (truthy button))
            (ClientState (client_fs w) (client_keys w)
               (client_log w ++ [Dispatch ServerUnreachable])))
    with (let (a, st') :=
            process_barcode_locally data (truthy button)
              (State (client_fs w) (client_keys w) []) in
          (a, ClientState (fs st') (VALID_SPECIAL_KEYS st')
                ((client_log w ++ [Dispatch ServerUnreachable])
                 ++ (Shared <$> output st')))).
  destruct (process_barcode_locally data _ _) as [ok st'].
  destruct ok.
  - rewrite open_gate_run, lift_play_sound.
    cbn [client_fs client_keys client_log]. by rewrite <- ?app_assoc.
  - rewrite lift_play_sound.
    cbn [client_fs client_keys client_log]. by rewrite <- ?app_assoc.
Qed.

Lemma sound_no_blink (name : list N) (root : node) :
  Dispatch GateBlink ∉ sound_effects name root.
Proof.
  unfold sound_effects. destruct (path_exists _ root).
  - intros H%list_elem_of_singleton. discriminate H.
  - apply not_elem_of_nil.
Qed.

(** The pulse is in the log of a dispatch exactly when the gate is set up
    and the decision was an admission. *)
Lemma gate_blink_logged (gate ok : bool) (root : node) (pre : list effect) :
  Dispatch GateBlink ∉ pre ->
  Dispatch GateBlink ∈
    pre ++ (if ok then gate_effects gate ++ sound_effects (lit "sound") root
            else sound_effects (lit "beep") root)
  <-> gate = true /\ ok = true.
Proof.
  intros Hpre. rewrite elem_of_app. split.
  - intros [H | H]; [done|]. destruct ok.
    + apply elem_of_app in H as [H | H]; [|by apply sound_no_blink in H].
      unfold gate_effects in H. destruct gate; [done|].
      apply list_elem_of_singleton in H. discriminate H.
    + by apply sound_no_blink in H.
  - intros [-> ->]. right. apply elem_of_app. left. apply list_elem_of_here.
Qed.







(** ** [Client.reader_process] *)

Lemma keycode_char_digit (keycode ch : N) :
  keycode_char keycode = Some ch -> is_decimal_digit ch = true.
Proof.
  unfold keycode_char, KEYCODE_MAP. cbn [List.find fst snd].
  repeat (destruct (_ =? keycode); [by intros [= <-]|]).
  done.
Qed.

Lemma keycode_char_of_digit (c : N) :
  is_decimal_digit c = true ->
  keycode_char (digit_keycode c) = Some c
  /\ digit_keycode c ≠ 0 /\ digit_keycode c ≠ 40.
Proof.
  intros Hc. apply decimal_digit_bounds in Hc.
  assert (c = 48 \/ c = 49 \/ c = 50 \/ c = 51 \/ c = 52 \/ c = 53
          \/ c = 54 \/ c = 55 \/ c = 56 \/ c = 57) as H by lia.
  repeat (destruct H as [-> | H]; [by vm_compute|]). subst. by vm_compute.
Qed.

Lemma process_report_digits (data cs : list N) :
  Forall (fun c => is_decimal_digit c = true) cs ->
  Forall (fun c => is_decimal_digit c = true) (fst (process_report data cs))
  /\ Forall (Forall (fun c => is_decimal_digit c = true))
       (snd (process_report data cs)).
Proof.
  intros Hcs. unfold process_report.
  destruct data as [|? [|? [|keycode ?]]]; simpl; try by split.
  destruct (keycode =? 0); simpl; [by split|].
  destruct (keycode =? 40); simpl; [split; by repeat constructor|].
  destruct (keycode_char keycode) as [ch|] eqn:E; simpl; [|by split].
  split; [|done]. apply Forall_app. split; [done|].
  constructor; [by eapply keycode_char_digit | constructor].
Qed.

Lemma reader_step_digits (st st' : reader_state) (answer : usb_answer)
  (queued : list (list N)) :
  reader_step st answer = Some (st', queued) -> digits_only st ->
  digits_only st'
  /\ Forall (Forall (fun c => is_decimal_digit c = true)) queued.
Proof.
  destruct st as [|cs], answer as [|[]|data|]; simpl; try done;
    try (intros [= <- <-] _; split; simpl; by auto).
  intros H Hcs. destruct (process_report_digits data cs Hcs) as [H1 H2].
  destruct (process_report data cs) as [chars q]. by injection H as <- <-.
Qed.

Lemma reader_run_digits (answers : list usb_answer) (st st' : reader_state)
  (queued : list (list N)) :
  reader_run answers st = Some (st', queued) -> digits_only st ->
  digits_only st'
  /\ Forall (Forall (fun c => is_decimal_digit c = true)) queued.
Proof.
  revert st queued. induction answers as [|a answers IH]; intros st queued;
    simpl.
  - intros [= <- <-] Hst. by split.
  - destruct (reader_step st a) as [[st1 q1]|] eqn:E1; [|done].
    destruct (reader_run answers st1) as [[st2 q2]|] eqn:E2; [|done].
    intros [= <- <-] Hst.
    destruct (reader_step_digits _ _ _ _ E1 Hst) as [Hst1 Hq1].
    destruct (IH _ _ E2 Hst1) as [Hst2 Hq2].
    split; [done|]. by apply Forall_app.
Qed.

Lemma reader_run_app (a b : list usb_answer) (st : reader_state) :
  reader_run (a ++ b) st =
  match reader_run a st with
  | Some (st1, q1) =>
      match reader_run b st1 with
      | Some (st2, q2) => Some (st2, q1 ++ q2)
      | None => None
      end
  | None => None
  end.
Proof.
  revert st. induction a as [|x a IH]; intros st; simpl.
  - by destruct (reader_run b st) as [[st2 q2]|].
  - destruct (reader_step st x) as [[st1 q1]|]; [|done].
    rewrite IH. destruct (reader_run a st1) as [[st2 q2]|]; [|done].
    destruct (reader_run b st2) as [[st3 q3]|]; [|done].
    by rewrite app_assoc.
Qed.

(** X13. Whatever the device sends, everything the reader puts on the
    queue is a string of decimal digits; so a queued string of 20
    characters is a well-formed code, and the format check of the engine
    can refuse a scanned string only for its length. *)
Theorem reader_queues_digits_only (answers : list usb_answer)
  (st' : reader_state) (queued : list (list N)) (barcode : list N)
  (ov : bool) (st : state) :
  reader_run answers Searching = Some (st', queued) ->
  barcode ∈ queued ->
  Forall (fun c => is_decimal_digit c = true) barcode
  /\ (length barcode = 20%nat -> well_formed barcode = true)
  /\ (length barcode ≠ 20%nat ->
      process_barcode_locally barcode ov st
      = (false, printed [MustBe20Digits] st)).
Proof.
  intros Hrun Hin.
  destruct (reader_run_digits _ _ _ _ Hrun I) as [_ Hq].
  rewrite Forall_forall in Hq. specialize (Hq _ Hin).
  split; [done|]. split.
  - intros Hl. unfold well_formed. rewrite Hl. simpl.
    apply forallb_forall. intros c Hc. rewrite Forall_forall in Hq.
    apply Hq. by apply list_elem_of_In.
  - intros Hl. apply refused_format_denied. by left.
Qed.

Lemma reader_queues_digits_only_witness :
  reader_run (ScannerFound true :: typed (lit "42")) Searching
  = Some (Reading [], [lit "42"])
  /\ Forall (fun c => is_decimal_digit c = true) (lit "42").
Proof.
  assert (E : reader_run (ScannerFound true :: typed (lit "42")) Searching
              = Some (Reading [], [lit "42"])) by (vm_compute; reflexivity).
  split; [exact E|].
  refine (proj1 (reader_queues_digits_only _ _ _ (lit "42") false fresh_state
                   E _)).
  apply list_elem_of_here.
Defined.

Lemma reader_step_release (cs : list N) :
  reader_step (Reading cs) (ReadData (key_report 0)) = Some (Reading cs, []).
Proof. reflexivity. Qed.

Lemma reader_step_digit (c : N) (cs : list N) :
  is_decimal_digit c = true ->
  reader_step (Reading cs) (ReadData (key_report (digit_keycode c)))
  = Some (Reading (cs ++ [c]), []).
Proof.
  intros Hc. destruct (keycode_char_of_digit c Hc) as (Hk & H0 & H40).
  cbn [reader_step key_report process_report].
  by rewrite (proj2 (N.eqb_neq _ _) H0), (proj2 (N.eqb_neq _ _) H40), Hk.
Qed.

Lemma typed_digits_run (s cs : list N) :
  Forall (fun c => is_decimal_digit c = true) s ->
  reader_run
    (flat_map (fun c => [ReadData (key_report (digit_keycode c));
                         ReadData (key_report 0)]) s)
    (Reading cs)
  = Some (Reading (cs ++ s), []).
Proof.
  revert cs. induction s as [|c s IH]; intros cs Hs.
  - simpl. by rewrite app_nil_r.
  - apply Forall_cons in Hs as [Hc Hs].
    cbn [flat_map app reader_run].
    rewrite (reader_step_digit c cs Hc), reader_step_release, (IH _ Hs).
    by rewrite <- app_assoc.
Qed.

(** X14. Typing is read back: when the scanner sends the key reports of a
    string of decimal digits and then Enter, each followed by the report of
    the key's release, the reader queues exactly that string and starts
    again with nothing collected. *)
Theorem typed_code_is_queued (s : list N) :
  Forall (fun c => is_decimal_digit c = true) s ->
  reader_run (typed s) (Reading []) = Some (Reading [], [s])
  /\ reader_run (ScannerFound true :: typed s) Searching
     = Some (Reading [], [s]).
Proof.
  intros Hs.
  assert (reader_run (typed s) (Reading []) = Some (Reading [], [s])) as H.
  { unfold typed. rewrite reader_run_app, (typed_digits_run s [] Hs). done. }
  split; [exact H|]. cbn [reader_run reader_step]. by rewrite H.
Qed.

Lemma typed_code_is_queued_witness :
  reader_run (typed code_001) (Reading []) = Some (Reading [], [code_001]).
Proof.
  refine (proj1 (typed_code_is_queued code_001 _)).
  apply Forall_forall. intros c Hc. apply (Is_true_true_1 _).
  revert c Hc. apply Forall_forall, (bool_decide_unpack _).
  vm_compute. exact I.
Defined.

(** X15. A USB fault drops what was collected: when the read fails, the
    digits collected so far are never queued, and what the reader queues
    afterwards is what it would queue from a fresh start without a
    device. *)
Theorem fault_drops_collected_digits (before after : list usb_answer)
  (cs cs1 : list N) (q1 : list (list N)) :
  reader_run before (Reading cs) = Some (Reading cs1, q1) ->
  reader_run (before ++ ReadFault :: after) (Reading cs)
  = match reader_run after Searching with
    | Some (st2, q2) => Some (st2, q1 ++ q2)
    | None => None
    end.
Proof.
  intros H. rewrite reader_run_app, H. cbn [reader_run reader_step].
  by destruct (reader_run after Searching) as [[st2 q2]|].
Qed.

Lemma fault_drops_collected_digits_witness :
  reader_run ([ReadData (key_report 30); ReadData (key_report 31)]
              ++ ReadFault :: ScannerFound true :: typed (lit "7"))
    (Reading [])
  = Some (Reading [], [lit "7"]).
Proof.
  rewrite (fault_drops_collected_digits
             [ReadData (key_report 30); ReadData (key_report 31)]
             (ScannerFound true :: typed (lit "7")) [] (lit "12") []).
  - vm_compute; reflexivity.
  - vm_compute; reflexivity.
Defined.

(** ** The button hold in [Client.start] and [Server.__init__] *)

Lemma adds_wipes_ret {A} (a : A) : adds_wipes (ret a) 0.
Proof. intros st. simpl. lia. Qed.

Lemma adds_wipes_bind {A B} (c : M A) (k : A -> M B) (n m : nat) :
  adds_wipes c n -> (forall a, adds_wipes (k a) m) ->
  adds_wipes (bind c k) (n + m).
Proof.
  intros Hc Hk st. unfold bind. specialize (Hc st).
  destruct (c st) as [a st1]. rewrite Hk. simpl in Hc. lia.
Qed.

Lemma adds_wipes_print (e : event) :
  adds_wipes (print e) (if is_cleanup_start e then 1 else 0).
Proof.
  intros st. unfold wipes, print. cbn [snd output].
  rewrite List.filter_app, length_app. simpl.
  destruct (is_cleanup_start e); simpl; lia.
Qed.

Lemma adds_wipes_silent {A} (c : M A) :
  (forall st, output (snd (c st)) = output st) -> adds_wipes c 0.
Proof. intros H st. unfold wipes. rewrite H. lia. Qed.

Lemma adds_wipes_play_sound (name : list N) : adds_wipes (play_sound name) 0.
Proof.
  intros st. unfold wipes.
  destruct (play_sound_frame name st) as (_ & _ & ->).
  rewrite List.filter_app, length_app.
  destruct (path_exists _ _); simpl; lia.
Qed.

Lemma delete_entry_silent (fault : list N -> node -> option node)
  (dir : path) (name : list N) (nd : node) (st : state) :
  output (snd (delete_entry fault dir name nd st)) = output st.
Proof.
  unfold delete_entry. destruct (fault name nd).
  - by destruct (set_entry dir name _ (fs st)).
  - by destruct (remove_entry dir name (fs st)).
Qed.

Lemma adds_wipes_delete_item (keep : list (list N))
  (fault : list N -> node -> option node) (name : list N) :
  adds_wipes (delete_item keep fault name) 0.
Proof.
  unfold delete_item. destruct (bool_decide (name ∈ keep)).
  { apply adds_wipes_ret. }
  change 0%nat with (0 + (0 + 0))%nat.
  apply adds_wipes_bind; [by apply adds_wipes_silent|]. intros is_dir.
  apply adds_wipes_bind.
  - destruct is_dir.
    + change 0%nat with (0 + 0)%nat.
      apply adds_wipes_bind; [apply (adds_wipes_print (DeletingDirectory _))|].
      intros _. apply adds_wipes_silent. intros st. unfold shutil_rmtree.
      destruct (lookup_path _ (fs st)) as [[d|m]|]; try done.
      apply delete_entry_silent.
    + change 0%nat with (0 + 0)%nat.
      apply adds_wipes_bind; [apply (adds_wipes_print (DeletingFile _))|].
      intros _. apply adds_wipes_silent. intros st. unfold os_remove.
      destruct (lookup_path _ (fs st)) as [[d|m]|]; try done.
      apply delete_entry_silent.
  - intros [|]; [apply adds_wipes_ret|].
    apply (adds_wipes_print (DeleteError _)).
Qed.

Lemma adds_wipes_delete_items (keep : list (list N))
  (fault : list N -> node -> option node) (items : list (list N)) :
  adds_wipes (delete_items keep fault items) 0.
Proof.
  induction items as [|name items IH]; simpl.
  - apply adds_wipes_ret.
  - change 0%nat with (0 + 0)%nat.
    apply adds_wipes_bind; [apply adds_wipes_delete_item | by intros _].
Qed.

Lemma adds_wipes_delete_database (fault : list N -> node -> option node) :
  adds_wipes (delete_database fault) 1.
Proof.
  unfold delete_database, wipe_except.
  change 1%nat with (1 + (0 + 0))%nat.
  apply adds_wipes_bind; [apply (adds_wipes_print CleanupStart)|]. intros _.
  apply adds_wipes_bind; [by apply adds_wipes_silent|]. intros is_dir.
  destruct is_dir; simpl; [|apply (adds_wipes_print NoDatabase)].
  change 0%nat with (0 + (0 + (0 + 0)))%nat.
  apply adds_wipes_bind; [by apply adds_wipes_silent|]. intros items.
  apply adds_wipes_bind; [apply adds_wipes_delete_items|]. intros _.
  apply adds_wipes_bind; [apply (adds_wipes_print CleanupComplete)|].
  intros _. apply adds_wipes_play_sound.
Qed.

Section HoldFacts.

Variable time : Type.
Variable held_10s : time -> time -> bool.
Variable delete_fault : list N -> node -> option node.

#[local] Abbreviation tick := (hold_tick time held_10s delete_fault).
#[local] Abbreviation run := (hold_run time held_10s delete_fault).

(** One turn of the loop with the button pressed, for either value of the
    start time. *)
Lemma hold_tick_pressed (s : sample time) (h : hold time) (st : state) :
  is_pressed time s = true ->
  let start :=
    match button_held_start_time time h with
    | None => clock_at_start time s
    | Some t => t
    end in
  let deleted :=
    match button_held_start_time time h with
    | None => false
    | Some _ => db_deleted_this_hold time h
    end in
  let fires := held_10s start (clock_now time s) && negb deleted in
  fst (tick s h st) = Hold time (Some start) (deleted || fires)
  /\ wipes (snd (tick s h st))
     = (wipes st + (if fires then 1 else 0))%nat.
Proof.
  intros Hp. unfold hold_tick. rewrite Hp.
  destruct h as [[t|] d]; cbn [button_held_start_time db_deleted_this_hold].
  - destruct (held_10s t _), d; cbn [andb negb orb];
      try (split; [done | simpl; lia]).
    unfold bind. pose proof (adds_wipes_delete_database delete_fault st) as H.
    destruct (delete_database delete_fault st) as [[] st1].
    cbn [ret fst snd] in *. by split.
  - destruct (held_10s _ _); cbn [andb negb orb];
      try (split; [done | simpl; lia]).
    unfold bind. pose proof (adds_wipes_delete_database delete_fault st) as H.
    destruct (delete_database delete_fault st) as [[] st1].
    cbn [ret fst snd] in *. by split.
Qed.

Lemma hold_run_pressed (samples : list (sample time)) (t0 : time) (d : bool)
  (st : state) :
  Forall (fun s => is_pressed time s = true) samples ->
  let fired := existsb (fun s => held_10s t0 (clock_now time s)) samples in
  fst (run samples (Hold time (Some t0) d) st)
  = Hold time (Some t0) (d || fired)
  /\ wipes (snd (run samples (Hold time (Some t0) d) st))
     = (wipes st + (if negb d && fired then 1 else 0))%nat.
Proof.
  revert d st. induction samples as [|s samples IH]; intros d st Hp.
  - simpl. rewrite orb_false_r, andb_false_r. split; [done | lia].
  - apply Forall_cons in Hp as [Hs Hp].
    destruct (hold_tick_pressed s (Hold time (Some t0) d) st Hs) as [H1 H2].
    cbn [button_held_start_time db_deleted_this_hold] in H1, H2.
    cbn [hold_run existsb]. unfold bind.
    destruct (tick s (Hold time (Some t0) d) st) as [h1 st1].
    cbn [fst snd] in H1, H2. subst h1.
    destruct (IH (d || held_10s t0 (clock_now time s) && negb d) st1 Hp)
      as [H3 H4].
    rewrite H3, H4, H2.
    destruct d, (held_10s t0 (clock_now time s)),
      (existsb _ samples); cbn [andb negb orb]; split; (done || lia).
Qed.

(** X16. One hold, one wipe: over a stretch of turns with the button
    pressed that starts from the released state, [delete_database] runs
    exactly once if the 10 seconds since the first turn are reached at some
    turn, and not at all otherwise, however long the button stays
    pressed. *)
Theorem one_wipe_per_hold (s0 : sample time) (rest : list (sample time))
  (h : hold time) (st : state) :
  Forall (fun s => is_pressed time s = true) (s0 :: rest) ->
  button_held_start_time time h = None ->
  wipes (snd (run (s0 :: rest) h st))
  = (wipes st
     + (if existsb (fun s => held_10s (clock_at_start time s0)
                               (clock_now time s)) (s0 :: rest)
        then 1 else 0))%nat
  /\ button_held_start_time time (fst (run (s0 :: rest) h st))
     = Some (clock_at_start time s0).
Proof.
  intros Hp Hh. apply Forall_cons in Hp as [Hs Hp].
  destruct (hold_tick_pressed s0 h st Hs) as [H1 H2]. rewrite Hh in H1, H2.
  cbn [orb negb] in H1, H2. rewrite andb_true_r in H1, H2.
  cbn [hold_run existsb]. unfold bind.
  destruct (tick s0 h st) as [h1 st1]. cbn [fst snd] in H1, H2. subst h1.
  destruct (hold_run_pressed rest (clock_at_start time s0)
              (held_10s (clock_at_start time s0) (clock_now time s0)) st1 Hp)
    as [H3 H4].
  rewrite H3, H4, H2. split; [|done].
  destruct (held_10s _ (clock_now time s0)), (existsb _ rest);
    cbn [andb negb orb]; lia.
Qed.

Lemma hold_run_bound (samples : list (sample time)) (h : hold time)
  (st : state) :
  (wipes (snd (run samples h st))
   <= wipes st
      + presses time
          (bool_decide (is_Some (button_held_start_time time h))) samples
      + (if bool_decide (is_Some (button_held_start_time time h))
            && negb (db_deleted_this_hold time h) then 1 else 0))%nat.
Proof.
  revert h st. induction samples as [|s samples IH]; intros h st.
  - simpl. lia.
  - cbn [hold_run presses]. unfold bind.
    destruct (is_pressed time s) eqn:Hs.
    + destruct (hold_tick_pressed s h st Hs) as [H1 H2].
      destruct (tick s h st) as [h1 st1]. cbn [fst snd] in H1, H2.
      specialize (IH h1 st1). subst h1.
      cbn [button_held_start_time db_deleted_this_hold] in IH.
      rewrite (bool_decide_eq_true_2 (is_Some (Some _))) in IH by by eexists.
      rewrite H2 in IH.
      destruct h as [[t|] d];
        cbn [button_held_start_time db_deleted_this_hold] in *.
      * rewrite (bool_decide_eq_true_2 (is_Some (Some _))) by by eexists.
        destruct (held_10s t _), d; cbn [andb negb orb] in *; lia.
      * rewrite (bool_decide_eq_false_2 (is_Some None))
          by (intros [? ?]; done).
        destruct (held_10s _ _); cbn [andb negb orb] in *; lia.
    + unfold hold_tick. rewrite Hs. cbn [ret].
      specialize (IH (Hold time None (db_deleted_this_hold time h)) st).
      cbn [button_held_start_time] in IH.
      rewrite (bool_decide_eq_false_2 (is_Some None)) in IH
        by (intros [? ?]; done).
      cbn [andb] in *. lia.
Qed.

(** X17. Never more wipes than holds: from the start of [Client.start],
    over any row of turns, [delete_database] runs at most as often as the
    button went from released to pressed. *)
Theorem wipes_bounded_by_presses (samples : list (sample time)) (st : state) :
  (wipes (snd (run samples (initial_hold time) st))
   <= wipes st + presses time false samples)%nat.
Proof.
  pose proof (hold_run_bound samples (initial_hold time) st) as H.
  cbn [initial_hold button_held_start_time db_deleted_this_hold] in H.
  rewrite (bool_decide_eq_false_2 (is_Some None)) in H
    by (intros [? ?]; done).
  cbn [andb] in H. lia.
Qed.

End HoldFacts.

Lemma one_wipe_per_hold_witness :
  wipes (snd (hold_run N seconds_held_10s no_fault
                [Sample N true 100 100; Sample N true 0 105;
                 Sample N true 0 110; Sample N true 0 130]
                (initial_hold N) provisioned_state))
  = 1%nat.
Proof.
  refine (eq_trans
            (proj1 (one_wipe_per_hold N seconds_held_10s no_fault
                      (Sample N true 100 100)
                      [Sample N true 0 105; Sample N true 0 110;
                       Sample N true 0 130]
                      (initial_hold N) provisioned_state _ _)) _).
  - by repeat constructor.
  - reflexivity.
  - vm_compute. reflexivity.
Defined.

Lemma makedirs_long_paths (p q : path) (n n' : node) :
  makedirs p n = Some n' -> (length p < length q)%nat ->
  path_exists q n' = path_exists q n /\ path_isdir q n' = path_isdir q n.
Proof.
  intros H Hl. unfold path_exists, path_isdir.
  destruct (lookup_path q n) as [x|] eqn:E.
  - destruct (makedirs_keeps _ _ _ _ _ H E) as (x' & -> & Hk).
    by destruct x, x'.
  - destruct (lookup_path q n') as [x'|] eqn:E'; [|done].
    destruct (makedirs_new _ _ _ _ _ H E') as [[x Hx] | Hpre].
    + congruence.
    + apply prefix_length in Hpre. lia.
Qed.

(** X18. Starting the server keeps the store: [Server.__init__] leaves
    every site and every registration as it was, in both directions, and
    the key list and the console too; when it succeeds the data directory
    exists, when the directory is already there nothing changes at all,
    and it fails only when the directory is not there. *)
Theorem server_start_keeps_store (st st' : state) (ok : bool) :
  Server_init st = (ok, st') ->
  VALID_SPECIAL_KEYS st' = VALID_SPECIAL_KEYS st
  /\ output st' = output st
  /\ (ok = true -> path_isdir BARCODE_DIR (fs st') = true)
  /\ (ok = false -> path_isdir BARCODE_DIR (fs st) = false)
  /\ (path_isdir BARCODE_DIR (fs st) = true -> ok = true /\ st' = st)
  /\ (forall site, site_exists site (fs st') = site_exists site (fs st))
  /\ (forall site key registry numerator,
        tuple_exists site key registry numerator (fs st')
        = tuple_exists site key registry numerator (fs st)).
Proof.
  unfold Server_init, os_call. intros H.
  destruct (makedirs BARCODE_DIR (fs st)) as [root'|] eqn:E;
    injection H as <- <-; cbn [fs VALID_SPECIAL_KEYS output].
  - split; [done|]. split; [done|]. split; [|split; [done|split; [|split]]].
    + intros _. by eapply makedirs_isdir.
    + intros Hd. rewrite (makedirs_existing _ _ Hd) in E. injection E as <-.
      by destruct st.
    + intros site. unfold site_exists, site_path.
      apply (makedirs_long_paths _ _ _ _ E). rewrite length_app. simpl. lia.
    + intros site key registry numerator. unfold tuple_exists, tuple_path.
      apply (makedirs_long_paths _ _ _ _ E). rewrite length_app. simpl. lia.
  - split; [done|]. split; [done|]. split; [done|].
    split; [|split; [|done]].
    + intros _. destruct (path_isdir BARCODE_DIR (fs st)) eqn:Hd; [|done].
      rewrite (makedirs_existing _ _ Hd) in E. done.
    + intros Hd. rewrite (makedirs_existing _ _ Hd) in E. done.
Qed.

Lemma server_start_keeps_store_witness :
  tuple_exists (lit "001") (lit "12345") (lit "01") (lit "0000000001")
    (fs (snd (Server_init registered_state))) = true.
Proof.
  rewrite (proj2 (proj2 (proj2 (proj2 (proj2 (proj2
             (server_start_keeps_store registered_state
                (snd (Server_init registered_state))
                (fst (Server_init registered_state))
                (surjective_pairing _)))))))).
  vm_compute. reflexivity.
Defined.

(** ** A run of the server *)

Lemma process_keeps_tuple (c : str) (ov : bool) (st : state) (r : bool)
  (st' : state) (s k g n : list N) :
  process_barcode_locally c ov st = (r, st') ->
  tuple_exists s k g n (fs st) = true -> tuple_exists s k g n (fs st') = true.
Proof.
  intros Hrun.
  destruct (process_effect _ _ _ _ _ Hrun) as [-> | (_ & _ & _ & _ & _ & Hi)];
    [done|].
  unfold tuple_exists, path_exists.
  destruct (lookup_path _ (fs st)) as [x|] eqn:E; [|done]. intros _.
  by destruct (store_insert_keeps _ _ _ _ _ _ _ _ Hi E) as (x' & -> & _).
Qed.

Lemma handle_keeps_tuple (conn : connection) (st : state)
  (s k g n : list N) :
  tuple_exists s k g n (fs st) = true ->
  tuple_exists s k g n (fs (snd (handle conn st))) = true.
Proof.
  intros Ht. unfold handle.
  destruct (received conn) as [data|]; [|done].
  destruct (decode_utf8 (bytes_strip data)) as [message|]; [|done].
  destruct (bool_decide (message = [])); [done|].
  cbn zeta. unfold bind at 1. cbn [print].
  unfold bind at 1.
  destruct (process_barcode_locally _ _ _) as [ok st1] eqn:Hrun.
  apply (process_keeps_tuple _ _ _ _ _ s k g n) in Hrun; [|exact Ht].
  by destruct (sendall_raises conn).
Qed.

Lemma serve_keeps_tuple (conns : list connection) (st : state)
  (s k g n : list N) :
  tuple_exists s k g n (fs st) = true ->
  tuple_exists s k g n (fs (snd (serve conns st))) = true.
Proof.
  revert st. induction conns as [|conn conns IH]; intros st Ht; [done|].
  cbn [serve]. unfold bind at 1.
  pose proof (handle_keeps_tuple conn st s k g n Ht) as H1.
  destruct (handle conn st) as [r st1]. unfold bind at 1.
  specialize (IH st1 H1). by destruct (serve conns st1) as [rs st2].
Qed.

(** X19. A registered code stays refused: once the tuple of a 20-digit
    code that is not a Master Key is in the store, the server answers
    [close] to every later request for that code without the override,
    whatever requests it has handled in between, and the tuple stays
    registered. *)
Theorem registered_code_stays_refused (between : list connection)
  (data : list byte) (message code : str) (st : state) :
  decode_utf8 (bytes_strip data) = Some message ->
  before_colon message = code ->
  override_flag message = false ->
  length code = 20%nat -> isdigit code = true -> is_master_key code = false ->
  tuple_exists (site_id_of code) (special_key_of code) (registry_id_of code)
    (numerator_of code) (fs st) = true ->
  let server := snd (serve between st) in
  fst (handle (Connection (Some data) false) server) = Some reply_close
  /\ tuple_exists (site_id_of code) (special_key_of code)
       (registry_id_of code) (numerator_of code)
       (fs (snd (handle (Connection (Some data) false) server))) = true.
Proof.
  intros Hdec Hb Ho Hl Hd Hm Ht server.
  pose proof (serve_keeps_tuple between st _ _ _ _ Ht) as Hs.
  fold server in Hs. split; [|by apply handle_keeps_tuple].
  assert (message ≠ []) as Hne.
  { intros ->. by subst code. }
  rewrite (handle_message _ _ _ _ Hdec Hne). cbn zeta. rewrite Hb, Ho.
  rewrite (process_normal _ _ Hl Hd Hm). cbn zeta.
  cbn [fs VALID_SPECIAL_KEYS output printed]. rewrite Hs.
  destruct (site_exists _ (fs server)); cbn [negb]; [|done].
  by destruct (bool_decide _).
Qed.

Lemma registered_code_stays_refused_witness :
  fst (handle (Connection (Some (request_bytes "12345000000000101001:False"))
                 false)
         (snd (serve [garbled_flag_request; blank_request;
                      invalid_utf8_request] registered_state)))
  = Some reply_close.
Proof.
  refine (proj1 (registered_code_stays_refused
                   [garbled_flag_request; blank_request; invalid_utf8_request]
                   (request_bytes "12345000000000101001:False")
                   (lit "12345000000000101001:False") code_001
                   registered_state _ _ _ _ _ _ _));
    vm_compute; reflexivity.
Defined.
